(** * AI Mastery Academy x Groq: the chat route, the chat page and the
      conversation store

    A shallow embedding of
      - [src/lib/groqModels.ts]      (the mode catalog [MODELS]),
      - [lib/types.ts]               (the [ChatRequest] shape),
      - [src/app/api/chat/route.ts]  (the [POST] handler),
      - [src/app/chat/page.tsx]      (the controls of [ChatPage]),
    followed by a model of the Conversation Store of the specification,
    whose implementation lives inside the [useChat] hook of the [ai/react]
    package and is not part of the sources. *)

From Stdlib Require Import String Ascii List ZArith NArith Bool Lia.
Import ListNotations.
Open Scope string_scope.
Set Warnings "-register-all".

(* ===================================================================== *)
(** ** The fragment of ECMAScript the handler relies on *)
(* ===================================================================== *)

Module Js.

(** Exceptions the handler can meet.  [External] stands for whatever the
    SDK throws. *)
Inductive exn : Type :=
| SyntaxError
| TypeError
| External (msg : string).

(** Result of evaluating an expression that may throw. *)
Inductive res (A : Type) : Type :=
| Ret (a : A)
| Throw (e : exn).
Arguments Ret {A} a.
Arguments Throw {A} e.

(** Values that [await req.json()] and property reads on it produce.
    A number is a double; the handler observes a number only through
    [ToBoolean] (doubles from JSON are falsy exactly when they are zero)
    and [Number::toString] (when it is used as a property key), so a number
    is carried as this pair of observations.  Strings are compared for
    equality and concatenated, nothing else. *)
Inductive value : Type :=
| VUndefined
| VNull
| VBool (b : bool)
| VNum (isZero : bool) (toStr : string)
| VStr (s : string)
| VArr (elems : list value)
| VObj (fields : list (string * value)).

(** [ToBoolean]. *)
Definition truthy (v : value) : bool :=
  match v with
  | VUndefined | VNull => false
  | VBool b => b
  | VNum isZero _ => negb isZero
  | VStr s => negb (s =? "")
  | VArr _ | VObj _ => true
  end.

(** [Array.isArray]. *)
Definition Array_isArray (v : value) : bool :=
  match v with
  | VArr _ => true
  | _ => false
  end.

(** Own data property of an object built by [JSON.parse]: a later
    duplicate of a key overwrites an earlier one. *)
Fixpoint own (k : string) (fields : list (string * value)) : option value :=
  match fields with
  | [] => None
  | (k', v) :: rest =>
      match own k rest with
      | Some w => Some w
      | None => if k' =? k then Some v else None
      end
  end.

Definition hasOwn (k : string) (fields : list (string * value)) : bool :=
  match own k fields with
  | Some _ => true
  | None => false
  end.

(** [ToString], which is also [ToPropertyKey] on these values.
    An array goes through [Array.prototype.join] (undefined and null
    elements print as the empty string).  A plain object goes through
    [OrdinaryToPrimitive]: an own, hence non-callable, [toString] hides
    [Object.prototype.toString], and [valueOf] never yields a primitive, so
    the conversion throws; otherwise the result is ["[object Object]"]. *)
Fixpoint ToString (v : value) : res string :=
  match v with
  | VUndefined => Ret "undefined"
  | VNull => Ret "null"
  | VBool b => Ret (if b then "true" else "false")
  | VNum _ s => Ret s
  | VStr s => Ret s
  | VArr elems =>
      (fix join (l : list value) : res string :=
         match l with
         | [] => Ret ""
         | x :: rest =>
             let first :=
               match x with
               | VUndefined | VNull => Ret ""
               | _ => ToString x
               end in
             match first with
             | Throw e => Throw e
             | Ret s =>
                 match rest with
                 | [] => Ret s
                 | _ :: _ =>
                     match join rest with
                     | Throw e => Throw e
                     | Ret r => Ret (s ++ "," ++ r)
                     end
                 end
             end
         end) elems
  | VObj fields =>
      if hasOwn "toString" fields then Throw TypeError
      else Ret "[object Object]"
  end.

(** Reading property [k] of a value, for a key that none of the built-in
    prototypes defines (the handler reads [messages] and [mode]): only a
    parsed object can hold it. *)
Definition getField (k : string) (v : value) : value :=
  match v with
  | VObj fields =>
      match own k fields with
      | Some w => w
      | None => VUndefined
      end
  | _ => VUndefined
  end.

(** The names [Object.prototype] defines (ECMA-262 and its Annex B). *)
Definition Object_prototype : list string :=
  [ "constructor"; "__defineGetter__"; "__defineSetter__"; "hasOwnProperty";
    "__lookupGetter__"; "__lookupSetter__"; "isPrototypeOf";
    "propertyIsEnumerable"; "toString"; "valueOf"; "__proto__";
    "toLocaleString" ].

Definition inherited (k : string) : bool :=
  existsb (String.eqb k) Object_prototype.

End Js.

(* ===================================================================== *)
(** ** [src/lib/groqModels.ts] *)
(* ===================================================================== *)

Module GroqModels.
Import Js.

(** [export const MODELS = { ... } as const], in source order. *)
Definition MODELS : list (string * string) :=
  [ ("fast", "llama-3.1-8b-instant");
    ("default", "llama-3.3-70b-versatile");
    ("reasoning", "openai/gpt-oss-120b");
    ("browserLite", "openai/gpt-oss-20b");
    ("safety", "meta-llama/llama-guard-4-12b");
    ("compound", "groq/compound") ].

(** [export type ModelKey = keyof typeof MODELS]. *)
Inductive ModelKey : Type :=
| fast | default | reasoning | browserLite | safety | compound.

Definition keyName (k : ModelKey) : string :=
  match k with
  | fast => "fast"
  | default => "default"
  | reasoning => "reasoning"
  | browserLite => "browserLite"
  | safety => "safety"
  | compound => "compound"
  end.

(** [Object.keys(MODELS)]. *)
Definition Object_keys : list string := map fst MODELS.

(** The catalog proper: the own properties of the object literal. *)
Fixpoint assoc (k : string) (o : list (string * string)) : option string :=
  match o with
  | [] => None
  | (k', v) :: rest => if k' =? k then Some v else assoc k rest
  end.

Definition isCatalogKey (k : string) : bool :=
  match assoc k MODELS with
  | Some _ => true
  | None => false
  end.

(** What the expression [MODELS[key]] evaluates to.  [MODELS] is an ordinary
    object literal, so a key that is not its own is looked up on
    [Object.prototype]. *)
Inductive member : Type :=
| Own (modelId : string)
| Inherited (name : string)
| Missing.

Definition MODELS_get (k : string) : member :=
  match assoc k MODELS with
  | Some id => Own id
  | None => if inherited k then Inherited k else Missing
  end.

(** The model identifier a typed key stands for: [MODELS[k]]. *)
Definition modelIdOf (k : ModelKey) : string :=
  match assoc (keyName k) MODELS with
  | Some modelId => modelId
  | None => ""
  end.

(** [ToBoolean] of a member: functions and objects are truthy. *)
Definition memberTruthy (m : member) : bool :=
  match m with
  | Own id => negb (id =? "")
  | Inherited _ => true
  | Missing => false
  end.

End GroqModels.

(* ===================================================================== *)
(** ** [lib/types.ts] *)
(* ===================================================================== *)

Module Types.
Import Js GroqModels.

Inductive Role : Type := user | assistant | system.

Definition roleName (r : Role) : string :=
  match r with
  | user => "user"
  | assistant => "assistant"
  | system => "system"
  end.

(** One element of [ChatRequest.messages]. *)
Record Message : Type := mkMessage { role : Role; content : string }.

Record ChatRequest : Type :=
  mkChatRequest { messages : list Message; mode : ModelKey }.

(** The annotation [: ChatRequest] of [route.ts] line 9 is erased when the
    handler runs: the body is whatever [req.json()] parsed.  The
    specification speaks of each turn "reduced to [{role, content}]"; that
    reduction, which no line of the handler performs, is the following
    projection of a message onto its two fields. *)
Definition reducedToRoleContent (m : value) : value :=
  VObj [ ("role", getField "role" m); ("content", getField "content" m) ].

End Types.

(* ===================================================================== *)
(** ** [src/app/api/chat/route.ts] *)
(* ===================================================================== *)

Module Route.
Import Js GroqModels.

(** Outcome of [await req.json()]: the promise rejects (with a [SyntaxError]
    when the body is not JSON), or it resolves to the parsed body. *)
Inductive JsonOutcome : Type :=
| Rejected (e : exn)
| Parsed (v : value).

(** What the handler does to the outside world.  [StreamTextCall] is the
    evaluation of [streamText({ model: groqProvider(modelId), messages })],
    the one place where the inference provider is contacted. *)
Inductive Effect : Type :=
| StreamTextCall (modelId : member) (messages : value)
| ConsoleError (e : exn).

(** Effects so far, then a value or an exception. *)
Definition M (A : Type) : Type := (list Effect * res A)%type.

Definition ret {A} (a : A) : M A := ([], Ret a).
Definition throw {A} (e : exn) : M A := ([], Throw e).
Definition emit (ev : Effect) : M unit := ([ev], Ret tt).
Definition lift {A} (r : res A) : M A := ([], r).

Definition bind {A B} (m : M A) (f : A -> M B) : M B :=
  match m with
  | (t, Throw e) => (t, Throw e)
  | (t, Ret a) => let (t', r) := f a in ((t ++ t')%list, r)
  end.

(** [try { m } catch (error) { h error }]. *)
Definition try_catch {A} (m : M A) (h : exn -> M A) : M A :=
  match m with
  | (t, Ret a) => (t, Ret a)
  | (t, Throw e) => let (t', r) := h e in ((t ++ t')%list, r)
  end.

Declare Scope route_scope.
Notation "x <- m ;; k" := (bind m (fun x => k))
  (at level 61, m at next level, right associativity) : route_scope.
Notation "m ;;; k" := (bind m (fun _ => k))
  (at level 61, right associativity) : route_scope.
Open Scope route_scope.

Section Handler.

(** The SDK: [Result] is what [streamText] resolves to, [Stream] the
    body of [result.toDataStreamResponse()].  Both calls may throw. *)
Variables Result Stream : Type.
Variable streamText : member -> value -> res Result.
Variable toDataStreamResponse : Result -> res Stream.

Inductive Response : Type :=
| TextResponse (body : string) (status : Z)
| DataStreamResponse (s : Stream).

(** [await req.json()]. *)
Definition req_json (req : JsonOutcome) : M value :=
  match req with
  | Rejected e => throw e
  | Parsed v => ret v
  end.

(** [const { messages, mode } = ...]: destructuring [null] throws; any
    other value is read property by property. *)
Definition destructure (v : value) : M (value * value) :=
  match v with
  | VNull | VUndefined => throw TypeError
  | _ => ret (getField "messages" v, getField "mode" v)
  end.

(** [MODELS[mode]]: the key is [ToPropertyKey(mode)]. *)
Definition MODELS_at (mode : value) : M member :=
  k <- lift (ToString mode) ;;
  ret (MODELS_get k).

(** [!mode || !MODELS[mode]], left to right with short circuit. *)
Definition modeRejected (mode : value) : M bool :=
  if negb (truthy mode) then ret true
  else m <- MODELS_at mode ;; ret (negb (memberTruthy m)).

(** The [try] block, lines 9 to 26. *)
Definition tryBlock (req : JsonOutcome) : M Response :=
  body <- req_json req ;;
  fields <- destructure body ;;
  let (messages, mode) := fields : value * value in
  if negb (truthy messages) || negb (Array_isArray messages) then
    ret (TextResponse "Messages array is required" 400)
  else
    bad <- modeRejected mode ;;
    if bad : bool then
      ret (TextResponse "Valid mode is required" 400)
    else
      modelId <- MODELS_at mode ;;
      emit (StreamTextCall modelId messages) ;;;
      result <- lift (streamText modelId messages) ;;
      s <- lift (toDataStreamResponse result) ;;
      ret (DataStreamResponse s).

(** Lines 21 to 26 on their own: what the [try] block yields once both
    guards are passed. *)
Definition afterGuards (modelId : member) (messages : value)
  : M Response :=
  ([StreamTextCall modelId messages],
   match streamText modelId messages with
   | Throw e => Throw e
   | Ret result =>
       match toDataStreamResponse result with
       | Throw e => Throw e
       | Ret s => Ret (DataStreamResponse s)
       end
   end).

(** The [catch] block, lines 27 to 30. *)
Definition catchBlock (error : exn) : M Response :=
  emit (ConsoleError error) ;;;
  ret (TextResponse "Internal server error" 500).

(** [export async function POST(req: Request)]. *)
Definition POST (req : JsonOutcome) : M Response :=
  try_catch (tryBlock req) catchBlock.

(** The calls to the inference provider among the effects of a run. *)
Definition providerCalls (m : M Response) : list (member * value) :=
  flat_map (fun ev => match ev with
                      | StreamTextCall id ms => [(id, ms)]
                      | ConsoleError _ => []
                      end) (fst m).

End Handler.

Arguments TextResponse {Stream} body status.
Arguments DataStreamResponse {Stream} s.
Arguments tryBlock {Result Stream} streamText toDataStreamResponse req.
Arguments catchBlock {Stream} error.
Arguments POST {Result Stream} streamText toDataStreamResponse req.
Arguments providerCalls {Stream} m.
Arguments afterGuards {Result Stream} streamText toDataStreamResponse
  modelId messages.

End Route.

(* ===================================================================== *)
(** ** [src/app/chat/page.tsx] *)
(* ===================================================================== *)

Module ChatPage.
Import GroqModels.

(** Text typed by the user: a sequence of UTF-16 code units. *)
Definition jsstring : Type := list N.

(** The code units of an ASCII text. *)
Fixpoint units (s : string) : jsstring :=
  match s with
  | EmptyString => []
  | String a rest => N_of_ascii a :: units rest
  end.

(** The code units [String.prototype.trim] strips: the WhiteSpace and
    LineTerminator productions of ECMA-262. *)
Definition isWhiteSpace (c : N) : bool :=
  ((9 <=? c) && (c <=? 13) || (c =? 32) || (c =? 160) || (c =? 5760)
   || (8192 <=? c) && (c <=? 8202) || (c =? 8232) || (c =? 8233)
   || (c =? 8239) || (c =? 8287) || (c =? 12288) || (c =? 65279))%N.

Fixpoint trimStart (s : jsstring) : jsstring :=
  match s with
  | [] => []
  | c :: rest => if isWhiteSpace c then trimStart rest else s
  end.

Definition trimEnd (s : jsstring) : jsstring := rev (trimStart (rev s)).

Definition trim (s : jsstring) : jsstring := trimEnd (trimStart s).

(** [ToBoolean] of a string. *)
Definition strTruthy (s : jsstring) : bool :=
  match s with
  | [] => false
  | _ :: _ => true
  end.

(** What the page reads of one element of [messages]. *)
Record UIMessage : Type :=
  mkUIMessage { id : jsstring; fromUser : bool; content : jsstring }.

(** What [useChat] hands to the page on a render. *)
Record Chat : Type :=
  mkChat { messages : list UIMessage; input : jsstring; isLoading : bool }.

(** One render of [ChatPage]: its own state and the hook's. *)
Record Page : Type := mkPage { selectedModel : ModelKey; chat : Chat }.

(** The [disabled] attributes, lines 26, 90 and 94. *)
Definition selectDisabled (p : Page) : bool := isLoading (chat p).
Definition inputDisabled (p : Page) : bool := isLoading (chat p).
Definition sendDisabled (p : Page) : bool :=
  isLoading (chat p) || negb (strTruthy (trim (input (chat p)))).

(** What the user can do to the page. *)
Inductive Event : Type :=
| SelectChange (k : ModelKey)
| InputChange (text : jsstring)
| FormSubmit.

Section Handlers.

(** The handlers come from [useChat({ api: '/api/chat', body: { mode:
    selectedModel } })]; the page only wires them.  [Request] is what the
    hook sends to the route. *)
Variable Request : Type.
Variable handleInputChange : jsstring -> Chat -> Chat.
Variable handleSubmit : ModelKey -> Chat -> Chat * list Request.

(** A disabled control dispatches nothing, and a form whose submit button
    is disabled is not submitted, by a click or by the Enter key. *)
Definition dispatch (p : Page) (e : Event) : Page * list Request :=
  match e with
  | SelectChange k =>
      if selectDisabled p then (p, [])
      else (mkPage k (chat p), [])
  | InputChange text =>
      if inputDisabled p then (p, [])
      else (mkPage (selectedModel p) (handleInputChange text (chat p)), [])
  | FormSubmit =>
      if sendDisabled p then (p, [])
      else
        let (c, sent) := handleSubmit (selectedModel p) (chat p) in
        (mkPage (selectedModel p) c, sent)
  end.

End Handlers.

Arguments dispatch {Request} handleInputChange handleSubmit p e.

End ChatPage.

(* ===================================================================== *)
(** ** The Conversation Store *)
(* ===================================================================== *)

Module ConversationStore.

(** Modelled from the spec: the closed set of roles of section 3.  The
    store that holds the turns is inside the [useChat] hook, which the
    sources only call. *)
Inductive Role : Type := user | assistant | system.

(** Modelled from the spec: the classified reasons of section 7, which an
    errored turn carries. *)
Inductive Reason : Type := timeout | cancelled | remoteError | unknown.

(** Modelled from the spec: the [status] field of a Turn, section 3. *)
Inductive Status : Type :=
| pending
| streaming
| complete
| errored (reason : Reason).

Definition TurnId : Type := nat.

(** Modelled from the spec: the Turn record of section 3. *)
Record Turn : Type :=
  mkTurn { id : TurnId; role : Role; content : string; status : Status }.

(** Modelled from the spec: the Conversation of section 3, an ordered
    sequence of turns, oldest first. *)
Definition Conversation : Type := list Turn.

(** Modelled from the spec: the two errors of the store, section 7. *)
Inductive StoreError : Type := InvalidRoleError | InvalidTransitionError.

Definition parseRole (r : string) : option Role :=
  if r =? "user" then Some user
  else if r =? "assistant" then Some assistant
  else if r =? "system" then Some system
  else None.

Definition isStreaming (t : Turn) : bool :=
  match status t with
  | streaming => true
  | _ => false
  end.

Definition anyStreaming (c : Conversation) : bool := existsb isStreaming c.

Definition streamingCount (c : Conversation) : nat :=
  length (filter isStreaming c).

(** An identifier no turn of the conversation carries. *)
Definition freshId (c : Conversation) : TurnId :=
  S (fold_right Nat.max 0 (map id c)).

(** The turn named by an identifier: the first one that carries it. *)
Fixpoint lookup (i : TurnId) (c : Conversation) : option Turn :=
  match c with
  | [] => None
  | t :: rest => if (id t =? i)%nat then Some t else lookup i rest
  end.

Fixpoint update (i : TurnId) (f : Turn -> Turn) (c : Conversation)
  : Conversation :=
  match c with
  | [] => []
  | t :: rest => if (id t =? i)%nat then f t :: rest else t :: update i f rest
  end.

Definition setStatus (s : Status) (t : Turn) : Turn :=
  mkTurn (id t) (role t) (content t) s.

Definition growContent (text : string) (t : Turn) : Turn :=
  mkTurn (id t) (role t) (content t ++ text) (status t).

(** Modelled from the spec: [appendTurn] of section 4.1, absent from the
    sources.  An assistant turn starts empty and pending; a user or system
    turn is complete from the start. *)
Definition appendTurn (r initialContent : string) (c : Conversation)
  : StoreError + Conversation * TurnId :=
  match parseRole r with
  | None => inl InvalidRoleError
  | Some assistant =>
      inr ((c ++ [mkTurn (freshId c) assistant "" pending])%list, freshId c)
  | Some ro =>
      inr ((c ++ [mkTurn (freshId c) ro initialContent complete])%list,
           freshId c)
  end.

(** Modelled from the spec: [beginStreaming] of section 4.1, absent from
    the sources. *)
Definition beginStreaming (i : TurnId) (c : Conversation)
  : StoreError + Conversation :=
  match lookup i c with
  | None => inl InvalidTransitionError
  | Some t =>
      match status t with
      | pending =>
          if anyStreaming c then inl InvalidTransitionError
          else inr (update i (setStatus streaming) c)
      | _ => inl InvalidTransitionError
      end
  end.

(** A mutation that is only permitted on a streaming turn. *)
Definition whenStreaming (i : TurnId) (f : Turn -> Turn) (c : Conversation)
  : StoreError + Conversation :=
  match lookup i c with
  | None => inl InvalidTransitionError
  | Some t =>
      match status t with
      | streaming => inr (update i f c)
      | _ => inl InvalidTransitionError
      end
  end.

(** Modelled from the spec: [appendChunk] of section 4.1, absent from the
    sources. *)
Definition appendChunk (i : TurnId) (text : string) (c : Conversation)
  : StoreError + Conversation :=
  whenStreaming i (growContent text) c.

(** Modelled from the spec: [completeTurn] of section 4.1, absent from the
    sources. *)
Definition completeTurn (i : TurnId) (c : Conversation)
  : StoreError + Conversation :=
  whenStreaming i (setStatus complete) c.

(** Modelled from the spec: [errorTurn] of section 4.1, absent from the
    sources. *)
Definition errorTurn (i : TurnId) (reason : Reason) (c : Conversation)
  : StoreError + Conversation :=
  whenStreaming i (setStatus (errored reason)) c.

(** Modelled from the spec: [snapshot] of section 4.1. *)
Definition snapshot (c : Conversation) : list Turn := c.

(** The operations of the store, as a caller issues them. *)
Inductive Op : Type :=
| AppendTurn (r initialContent : string)
| BeginStreaming (i : TurnId)
| AppendChunk (i : TurnId) (text : string)
| CompleteTurn (i : TurnId)
| ErrorTurn (i : TurnId) (reason : Reason).

Definition apply (op : Op) (c : Conversation) : StoreError + Conversation :=
  match op with
  | AppendTurn r initialContent =>
      match appendTurn r initialContent c with
      | inl e => inl e
      | inr (c', _) => inr c'
      end
  | BeginStreaming i => beginStreaming i c
  | AppendChunk i text => appendChunk i text c
  | CompleteTurn i => completeTurn i c
  | ErrorTurn i reason => errorTurn i reason c
  end.

(** A failed operation leaves the store as it was. *)
Definition exec (op : Op) (c : Conversation) : Conversation :=
  match apply op c with
  | inl _ => c
  | inr c' => c'
  end.

Definition run (ops : list Op) (c : Conversation) : Conversation :=
  fold_left (fun acc op => exec op acc) ops c.

(** Chunks handed to [appendChunk] one after the other, as the transport
    delivers them; the first failure stops the delivery. *)
Fixpoint deliver (i : TurnId) (chunks : list string) (c : Conversation)
  : StoreError + Conversation :=
  match chunks with
  | [] => inr c
  | text :: rest =>
      match appendChunk i text c with
      | inl e => inl e
      | inr c' => deliver i rest c'
      end
  end.

(** All the chunks of a delivery, joined in order. *)
Definition concatChunks (chunks : list string) : string :=
  fold_right String.append "" chunks.

(** Modelled from the spec: the edges of the status machine of section
    4.1, [pending -> streaming -> {complete | errored}]. *)
Inductive transition : Status -> Status -> Prop :=
| begin_streaming : transition pending streaming
| finish_complete : transition streaming complete
| finish_errored : forall reason, transition streaming (errored reason).

Definition isTerminal (s : Status) : bool :=
  match s with
  | complete | errored _ => true
  | pending | streaming => false
  end.

(** Position on the path of the machine. *)
Definition rank (s : Status) : nat :=
  match s with
  | pending => 0
  | streaming => 1
  | complete | errored _ => 2
  end.

(** Zero or more edges. *)
Inductive reaches : Status -> Status -> Prop :=
| reaches_refl : forall s, reaches s s
| reaches_step : forall s1 s2 s3,
    reaches s1 s2 -> transition s2 s3 -> reaches s1 s3.

End ConversationStore.

(* ===================================================================== *)
(** ** The model selector of [src/app/chat/page.tsx] *)
(* ===================================================================== *)

Module Selector.
Import Js GroqModels.

(** One [<option key={key} value={key}>] of the selector. *)
Record SelectOption : Type :=
  mkSelectOption { optionValue : string; optionLabel : string }.

(** A member of [MODELS] as a JSX child: a string is rendered as text,
    [undefined] and functions render nothing. *)
Definition memberText (m : member) : string :=
  match m with
  | Own modelId => modelId
  | Inherited _ | Missing => ""
  end.

(** [Object.keys(MODELS).map((key) => ...)], lines 28 to 32: the label is
    [{key} ({MODELS[key as ModelKey]})]. *)
Definition selectOptions : list SelectOption :=
  map (fun key =>
         mkSelectOption key (key ++ " (" ++ memberText (MODELS_get key) ++ ")"))
      Object_keys.

End Selector.

(* ===================================================================== *)
(** ** Submitting the form of [src/app/chat/page.tsx] *)
(* ===================================================================== *)

Module Submission.
Import ChatPage.

(** The two errors the specification gives [submitTurn] (section 7). *)
Inductive SpecError : Type := ValidationError | TurnInFlightError.

(** What an attempt to submit comes to.  The page has two outcomes: the
    Send button is disabled and no submit event reaches [handleSubmit]
    (line 94), or [handleSubmit] is called (line 83).  [Raised] is the
    outcome the specification describes, a call that fails with an error;
    the page has no [throw], no error state and no error message. *)
Inductive SubmitOutcome : Type :=
| NotSubmitted
| HandedToHook
| Raised (e : SpecError).

Definition submitOutcome (p : Page) : SubmitOutcome :=
  if sendDisabled p then NotSubmitted else HandedToHook.

End Submission.

(* ===================================================================== *)
(** ** Sample inputs *)
(* ===================================================================== *)

Module Samples.
Import Js GroqModels Route.

(** An SDK whose calls succeed and carry no data. *)
Definition sdkStreamText (_ : member) (_ : value) : res unit := Ret tt.
Definition sdkToResponse (_ : unit) : res unit := Ret tt.

(** An SDK whose [streamText] throws. *)
Definition sdkDown (_ : member) (_ : value) : res unit :=
  Throw (External "fetch failed").

Definition helloMessages : list value :=
  [ VObj [ ("role", VStr "user"); ("content", VStr "Hello") ] ].

(** [{ "messages": [{ "role": "user", "content": "Hello" }], "mode": k }]. *)
Definition helloBody (k : string) : value :=
  VObj [ ("messages", VArr helloMessages); ("mode", VStr k) ].

(** [{ "messages": [], "mode": k }]. *)
Definition emptyBody (k : string) : value :=
  VObj [ ("messages", VArr []); ("mode", VStr k) ].

(** [{ "mode": "nope" }]: no messages and no valid mode. *)
Definition badBody : value := VObj [ ("mode", VStr "nope") ].

(** A stand-in for the hook: typing replaces the input; submitting appends
    the user message, clears the input, raises [isLoading] and posts the
    selected mode. *)
Definition hookInputChange (text : ChatPage.jsstring) (c : ChatPage.Chat)
  : ChatPage.Chat :=
  ChatPage.mkChat (ChatPage.messages c) text (ChatPage.isLoading c).

Definition hookSubmit (k : ModelKey) (c : ChatPage.Chat)
  : ChatPage.Chat * list ModelKey :=
  (ChatPage.mkChat
     (ChatPage.messages c
      ++ [ChatPage.mkUIMessage (ChatPage.units "u") true (ChatPage.input c)])
     [] true,
   [k]).

(** The page while the answer to "Hello" is streaming and "Hi" has
    arrived. *)
Definition streamingHi : ChatPage.Page :=
  ChatPage.mkPage default
    (ChatPage.mkChat
       [ ChatPage.mkUIMessage (ChatPage.units "1") true
           (ChatPage.units "Hello");
         ChatPage.mkUIMessage (ChatPage.units "2") false
           (ChatPage.units "Hi") ]
       [] true).

(** The idle page with only blanks typed: a space, a tab and a no-break
    space. *)
Definition blankInput : ChatPage.Page :=
  ChatPage.mkPage default (ChatPage.mkChat [] [32; 9; 160]%N false).

(** A conversation of the store with an answer in flight. *)
Definition answering : ConversationStore.Conversation :=
  [ ConversationStore.mkTurn 1 ConversationStore.user "Hello"
      ConversationStore.complete;
    ConversationStore.mkTurn 2 ConversationStore.assistant "Hi"
      ConversationStore.streaming ].

(** [{ "messages": [...], "mode": [k] }]: the mode wrapped in an array. *)
Definition wrappedBody (k : string) : value :=
  VObj [ ("messages", VArr helloMessages); ("mode", VArr [VStr k]) ].

(** [{ "messages": [], "mode": { "toString": null } }]. *)
Definition stubbornBody : value :=
  VObj [ ("messages", VArr []); ("mode", VObj [ ("toString", VNull) ]) ].

(** The hello request with fields the handler does not read. *)
Definition noisyBody : value :=
  VObj [ ("id", VStr "abc"); ("messages", VArr helloMessages);
         ("mode", VStr "default"); ("stream", VBool true) ].

(** A message as a client that keeps more than role and content sends it:
    with an [id] and a [parts] array. *)
Definition clientMessages : list value :=
  [ VObj [ ("id", VStr "m1"); ("role", VStr "user");
           ("content", VStr "Hello");
           ("parts", VArr [ VObj [ ("type", VStr "text");
                                   ("text", VStr "Hello") ] ]) ] ].

(** [{ "id": "c1", "messages": [...], "mode": "default" }]. *)
Definition clientBody : value :=
  VObj [ ("id", VStr "c1"); ("messages", VArr clientMessages);
         ("mode", VStr "default") ].

(** The page while the answer is streaming, with text in the input. *)
Definition streamingTyped : ChatPage.Page :=
  ChatPage.mkPage default
    (ChatPage.mkChat
       [ ChatPage.mkUIMessage (ChatPage.units "1") true
           (ChatPage.units "Hello");
         ChatPage.mkUIMessage (ChatPage.units "2") false
           (ChatPage.units "Hi") ]
       (ChatPage.units "again") true).

(** [{ "messages": [] }]: no mode at all. *)
Definition modelessBody : value := VObj [ ("messages", VArr []) ].

(** The idle page with "Hello" typed. *)
Definition typedHello : ChatPage.Page :=
  ChatPage.mkPage default
    (ChatPage.mkChat [] (ChatPage.units "Hello") false).

End Samples.

(* ===================================================================== *)
(** * Properties of the route *)
(* ===================================================================== *)

Section RouteFacts.
Import Js GroqModels Types Route.

Variables Result Stream : Type.
Variable streamText : member -> value -> res Result.
Variable toDataStreamResponse : Result -> res Stream.

Local Abbreviation handler := (POST streamText toDataStreamResponse).
Local Abbreviation attempt := (tryBlock streamText toDataStreamResponse).
Local Abbreviation afterGuards :=
  (Route.afterGuards streamText toDataStreamResponse).

Lemma getField_array_is_object k v ms :
  getField k v = VArr ms -> exists fields, v = VObj fields.
Proof.
  destruct v; simpl; try discriminate. eauto.
Qed.

Lemma attempt_accepted v ms mode k :
  getField "messages" v = VArr ms ->
  getField "mode" v = mode ->
  truthy mode = true ->
  ToString mode = Ret k ->
  memberTruthy (MODELS_get k) = true ->
  attempt (Parsed v) = afterGuards (MODELS_get k) (VArr ms).
Proof.
  intros Hms Hmode Htruthy Hkey Hmember.
  destruct (getField_array_is_object _ _ _ Hms) as [fields ->].
  unfold tryBlock, Route.afterGuards, destructure, req_json, modeRejected,
    MODELS_at, bind, ret, lift, emit.
  cbn [fst snd app].
  rewrite Hms, Hmode. cbn [truthy Array_isArray negb orb].
  rewrite Htruthy. cbn [negb]. rewrite Hkey. cbn [app].
  rewrite Hmember. cbn [negb app].
  destruct (streamText (MODELS_get k) (VArr ms)) as [result | e]; cbn; auto.
  destruct (toDataStreamResponse result); reflexivity.
Qed.

Lemma attempt_no_messages v :
  v <> VNull -> v <> VUndefined ->
  truthy (getField "messages" v) && Array_isArray (getField "messages" v)
    = false ->
  attempt (Parsed v)
  = ([], Ret (TextResponse "Messages array is required" 400)).
Proof.
  intros Hnull Hundef Hguard.
  assert (Hor : negb (truthy (getField "messages" v))
                || negb (Array_isArray (getField "messages" v)) = true).
  { rewrite <- negb_andb, Hguard. reflexivity. }
  unfold tryBlock, destructure, req_json, bind, ret.
  destruct v; try congruence; cbn [app]; rewrite Hor; reflexivity.
Qed.

Lemma attempt_mode_rejected v ms mode :
  getField "messages" v = VArr ms ->
  getField "mode" v = mode ->
  (truthy mode = false
   \/ exists k, ToString mode = Ret k /\ memberTruthy (MODELS_get k) = false) ->
  attempt (Parsed v) = ([], Ret (TextResponse "Valid mode is required" 400)).
Proof.
  intros Hms Hmode Hbad.
  destruct (getField_array_is_object _ _ _ Hms) as [fields ->].
  unfold tryBlock, destructure, req_json, modeRejected, MODELS_at,
    bind, ret, lift.
  cbn [fst snd app].
  rewrite Hms, Hmode. cbn [truthy Array_isArray negb orb].
  destruct (truthy mode) eqn:Htruthy; cbn [negb app]; auto.
  destruct Hbad as [Hfalse | (k & Hkey & Hmember)]; [discriminate |].
  rewrite Hkey. cbn [app]. rewrite Hmember. reflexivity.
Qed.

Lemma handler_of_return req effs resp :
  attempt req = (effs, Ret resp) -> handler req = (effs, Ret resp).
Proof. unfold POST, try_catch. intros ->. reflexivity. Qed.

Lemma handler_of_throw req effs e :
  attempt req = (effs, Throw e) ->
  handler req
  = ((effs ++ [ConsoleError e])%list,
     Ret (TextResponse "Internal server error" 500)).
Proof. unfold POST, try_catch. intros ->. reflexivity. Qed.

Lemma handler_never_throws req :
  exists effs resp, handler req = (effs, Ret resp).
Proof.
  destruct (attempt req) as [effs [resp | e]] eqn:Hrun.
  - exists effs, resp. now apply handler_of_return.
  - exists (effs ++ [ConsoleError e])%list,
      (TextResponse "Internal server error" 500).
    now apply handler_of_throw.
Qed.

Lemma handler_accepted v ms mode k :
  getField "messages" v = VArr ms ->
  getField "mode" v = mode ->
  truthy mode = true ->
  ToString mode = Ret k ->
  memberTruthy (MODELS_get k) = true ->
  providerCalls (handler (Parsed v)) = [(MODELS_get k, VArr ms)]
  /\ forall effs body,
       handler (Parsed v) <> (effs, Ret (TextResponse body 400)).
Proof.
  intros Hms Hmode Htruthy Hkey Hmember.
  pose proof (attempt_accepted v ms mode k Hms Hmode Htruthy Hkey Hmember)
    as Hrun.
  unfold Route.afterGuards in Hrun.
  destruct (streamText (MODELS_get k) (VArr ms)) as [result | e].
  - destruct (toDataStreamResponse result) as [s | e].
    + rewrite (handler_of_return _ _ _ Hrun). split; [reflexivity |].
      intros effs body; discriminate.
    + rewrite (handler_of_throw _ _ _ Hrun). split; [reflexivity |].
      intros effs body; discriminate.
  - rewrite (handler_of_throw _ _ _ Hrun). split; [reflexivity |].
    intros effs body; discriminate.
Qed.

Lemma typed_key_is_own (k : ModelKey) :
  MODELS_get (keyName k) = Own (modelIdOf k)
  /\ memberTruthy (MODELS_get (keyName k)) = true
  /\ isCatalogKey (keyName k) = true.
Proof. destruct k; repeat split. Qed.

(** A mode that is a string, is not a key of [MODELS] and is not a name
    of [Object.prototype] is answered with the 400 of line 16, and the
    provider is not contacted. *)
Lemma handler_rejects_unknown_mode v ms k :
  getField "messages" v = VArr ms ->
  getField "mode" v = VStr k ->
  isCatalogKey k = false ->
  inherited k = false ->
  handler (Parsed v) = ([], Ret (TextResponse "Valid mode is required" 400)).
Proof.
  intros Hms Hmode Hcat Hinh.
  apply handler_of_return.
  apply attempt_mode_rejected with (ms := ms) (mode := VStr k); auto.
  destruct (truthy (VStr k)) eqn:Htruthy; [right | now left].
  exists k. split; [reflexivity |].
  unfold MODELS_get. unfold isCatalogKey in Hcat.
  destruct (assoc k MODELS); [discriminate |].
  rewrite Hinh. reflexivity.
Qed.

(** A mode that names a member of [Object.prototype] passes the guard of
    line 15 although [MODELS] has no such key. *)
Lemma handler_admits_inherited_mode v ms k :
  getField "messages" v = VArr ms ->
  getField "mode" v = VStr k ->
  inherited k = true ->
  isCatalogKey k = false
  /\ providerCalls (handler (Parsed v)) = [(Inherited k, VArr ms)].
Proof.
  intros Hms Hmode Hinh.
  assert (Hcat : assoc k MODELS = None).
  { unfold inherited, Object_prototype in Hinh. cbn [existsb] in Hinh.
    repeat (apply orb_prop in Hinh; destruct Hinh as [Hinh | Hinh];
            [apply String.eqb_eq in Hinh; subst k; reflexivity |]).
    discriminate. }
  assert (Hget : MODELS_get k = Inherited k).
  { unfold MODELS_get. rewrite Hcat, Hinh. reflexivity. }
  split; [unfold isCatalogKey; now rewrite Hcat |].
  assert (Htruthy : truthy (VStr k) = true).
  { destruct k; [discriminate Hinh | reflexivity]. }
  rewrite <- Hget.
  apply (handler_accepted v ms (VStr k) k); auto.
  rewrite Hget. reflexivity.
Qed.

(** C1, evaluated on the handler: the body
    [{ "messages": [], "mode": "constructor" }] names a mode that is not a
    key of [MODELS], yet the handler does not answer "Valid mode is
    required": [MODELS["constructor"]] is the inherited [Object] function,
    which is truthy, so [streamText] is called with it. *)
Theorem POST_inherited_mode_reaches_provider :
  isCatalogKey "constructor" = false
  /\ providerCalls (handler (Parsed (Samples.emptyBody "constructor")))
     = [(Inherited "constructor", VArr [])]
  /\ forall effs,
       handler (Parsed (Samples.emptyBody "constructor"))
       <> (effs, Ret (TextResponse "Valid mode is required" 400)).
Proof.
  split; [reflexivity |].
  destruct (handler_accepted (Samples.emptyBody "constructor") []
              (VStr "constructor") "constructor") as [Hcalls Hno400];
    try reflexivity.
  split; [exact Hcalls |].
  intros effs. apply Hno400.
Qed.

(** C2, as the route has it: a request that passes both guards makes the
    handler evaluate [streamText] exactly once, with the [messages] array of
    the body exactly as it arrived (same elements, same order, every field
    of every element; nothing is reduced) and with [MODELS[mode]] as the
    model.  For a mode that is a catalog key the model is the entry of that
    key; the entry of [default] is ["llama-3.3-70b-versatile"]. *)
Theorem POST_forwards_messages_verbatim :
  (forall v ms mode k,
      getField "messages" v = VArr ms ->
      getField "mode" v = mode ->
      truthy mode = true ->
      ToString mode = Ret k ->
      memberTruthy (MODELS_get k) = true ->
      providerCalls (handler (Parsed v)) = [(MODELS_get k, VArr ms)])
  /\ (forall v ms (k : ModelKey),
        getField "messages" v = VArr ms ->
        getField "mode" v = VStr (keyName k) ->
        providerCalls (handler (Parsed v)) = [(Own (modelIdOf k), VArr ms)])
  /\ modelIdOf default = "llama-3.3-70b-versatile".
Proof.
  split; [| split; [| reflexivity]].
  - intros v ms mode k Hms Hmode Htruthy Hkey Hmember.
    now apply (handler_accepted v ms mode k).
  - intros v ms k Hms Hmode.
    destruct (typed_key_is_own k) as (Hget & Hmember & _).
    rewrite <- Hget.
    apply (handler_accepted v ms (VStr (keyName k))); auto.
    destruct k; reflexivity.
Qed.

(** C9: a body whose [messages] is the empty array and whose [mode] is a
    key of the catalog passes both guards: [streamText] is called with the
    empty array, and the answer is never a 400. *)
Theorem POST_accepts_empty_transcript (v : value) (k : ModelKey) :
  getField "messages" v = VArr [] ->
  getField "mode" v = VStr (keyName k) ->
  providerCalls (handler (Parsed v)) = [(Own (modelIdOf k), VArr [])]
  /\ forall effs body,
       handler (Parsed v) <> (effs, Ret (TextResponse body 400)).
Proof.
  intros Hms Hmode.
  destruct (typed_key_is_own k) as (Hget & Hmember & _).
  rewrite <- Hget.
  apply (handler_accepted v [] (VStr (keyName k))); auto.
  destruct k; reflexivity.
Qed.

(** C10: the handler answers every request and lets no exception out.
    A body without a [messages] array is answered "Messages array is
    required" with status 400 whatever its mode; whatever the [try] block
    throws (a body that is not JSON, a [null] body, a failing [streamText]
    or [toDataStreamResponse]) is logged and answered "Internal server
    error" with status 500. *)
Theorem POST_always_responds :
  (forall req, exists effs resp, handler req = (effs, Ret resp))
  /\ (forall v,
        v <> VNull -> v <> VUndefined ->
        truthy (getField "messages" v) && Array_isArray (getField "messages" v)
          = false ->
        handler (Parsed v)
        = ([], Ret (TextResponse "Messages array is required" 400)))
  /\ (forall req effs e,
        attempt req = (effs, Throw e) ->
        handler req
        = ((effs ++ [ConsoleError e])%list,
           Ret (TextResponse "Internal server error" 500)))
  /\ (forall e, attempt (Rejected e) = ([], Throw e))
  /\ attempt (Parsed VNull) = ([], Throw TypeError)
  /\ (forall v ms mode k e,
        getField "messages" v = VArr ms ->
        getField "mode" v = mode ->
        truthy mode = true ->
        ToString mode = Ret k ->
        memberTruthy (MODELS_get k) = true ->
        (streamText (MODELS_get k) (VArr ms) = Throw e
         \/ exists result,
             streamText (MODELS_get k) (VArr ms) = Ret result
             /\ toDataStreamResponse result = Throw e) ->
        attempt (Parsed v)
        = ([StreamTextCall (MODELS_get k) (VArr ms)], Throw e)).
Proof.
  split; [exact handler_never_throws |].
  split.
  { intros v Hnull Hundef Hguard.
    apply handler_of_return. now apply attempt_no_messages. }
  split; [exact handler_of_throw |].
  split; [intros e; reflexivity |].
  split; [reflexivity |].
  intros v ms mode k e Hms Hmode Htruthy Hkey Hmember Hthrow.
  rewrite (attempt_accepted v ms mode k Hms Hmode Htruthy Hkey Hmember).
  unfold Route.afterGuards.
  destruct Hthrow as [-> | (result & -> & ->)]; reflexivity.
Qed.

End RouteFacts.

Lemma POST_forwards_messages_verbatim_witness :
  Route.providerCalls
    (Route.POST Samples.sdkStreamText Samples.sdkToResponse
       (Route.Parsed Samples.clientBody))
  = [(GroqModels.Own "llama-3.3-70b-versatile",
      Js.VArr Samples.clientMessages)].
Proof.
  apply (proj1 (POST_forwards_messages_verbatim unit unit
                  Samples.sdkStreamText Samples.sdkToResponse)
           Samples.clientBody Samples.clientMessages
           (Js.VStr "default") "default");
    reflexivity.
Defined.

(** C2, as stated, on the route: were every turn reduced to
    [{role, content}], the message of [Samples.clientBody] would reach
    [streamText] without its [id] and [parts].  It reaches it with both. *)
Lemma POST_does_not_reduce_messages :
  Route.providerCalls
    (Route.POST Samples.sdkStreamText Samples.sdkToResponse
       (Route.Parsed Samples.clientBody))
  <> [(GroqModels.Own "llama-3.3-70b-versatile",
       Js.VArr (map Types.reducedToRoleContent Samples.clientMessages))].
Proof.
  intros Hreduced. vm_compute in Hreduced. discriminate Hreduced.
Qed.

Lemma POST_accepts_empty_transcript_witness :
  Route.providerCalls
    (Route.POST Samples.sdkStreamText Samples.sdkToResponse
       (Route.Parsed (Samples.emptyBody "fast")))
  = [(GroqModels.Own "llama-3.1-8b-instant", Js.VArr [])].
Proof.
  apply (POST_accepts_empty_transcript unit unit
           Samples.sdkStreamText Samples.sdkToResponse
           (Samples.emptyBody "fast") GroqModels.fast);
    reflexivity.
Defined.

Lemma POST_always_responds_witness :
  Route.POST Samples.sdkStreamText Samples.sdkToResponse
    (Route.Parsed Samples.badBody)
  = ([], Js.Ret (Route.TextResponse "Messages array is required" 400))
  /\ Route.POST Samples.sdkDown Samples.sdkToResponse
       (Route.Parsed (Samples.helloBody "default"))
     = ([Route.StreamTextCall (GroqModels.Own "llama-3.3-70b-versatile")
           (Js.VArr Samples.helloMessages);
         Route.ConsoleError (Js.External "fetch failed")],
        Js.Ret (Route.TextResponse "Internal server error" 500)).
Proof.
  split.
  - apply (proj1 (proj2 (POST_always_responds unit unit
                           Samples.sdkStreamText Samples.sdkToResponse)));
      [discriminate | discriminate | reflexivity].
  - apply (proj1 (proj2 (proj2 (POST_always_responds unit unit
                                  Samples.sdkDown Samples.sdkToResponse)))
             (Route.Parsed (Samples.helloBody "default"))
             [Route.StreamTextCall (GroqModels.Own "llama-3.3-70b-versatile")
                (Js.VArr Samples.helloMessages)]
             (Js.External "fetch failed")).
    reflexivity.
Defined.

(* ===================================================================== *)
(** * Properties of the chat page *)
(* ===================================================================== *)

Section PageFacts.
Import GroqModels ChatPage.

Variable Request : Type.
Variable handleInputChange : jsstring -> Chat -> Chat.
Variable handleSubmit : ModelKey -> Chat -> Chat * list Request.

Local Abbreviation dispatch :=
  (ChatPage.dispatch handleInputChange handleSubmit).

Lemma trimStart_blank s :
  trimStart s = [] <-> forallb isWhiteSpace s = true.
Proof.
  induction s as [| c rest IH]; cbn.
  - tauto.
  - destruct (isWhiteSpace c); cbn; [exact IH |].
    split; discriminate.
Qed.

Lemma trimStart_head s c rest :
  trimStart s = c :: rest -> isWhiteSpace c = false.
Proof.
  induction s as [| d s' IH]; cbn; [discriminate |].
  destruct (isWhiteSpace d) eqn:Hd; [exact IH |].
  intros [= -> _]. exact Hd.
Qed.

Lemma forallb_rev_blank s :
  forallb isWhiteSpace (rev s) = forallb isWhiteSpace s.
Proof.
  induction s as [| c rest IH]; cbn; [reflexivity |].
  rewrite forallb_app, IH. cbn. rewrite andb_true_r. apply andb_comm.
Qed.

(** A text trims to the empty string exactly when it is empty or made of
    white space only. *)
Lemma trim_blank s : trim s = [] <-> forallb isWhiteSpace s = true.
Proof.
  unfold trim, trimEnd. split.
  - intros Hempty.
    assert (Hrev : trimStart (rev (trimStart s)) = []).
    { destruct (trimStart (rev (trimStart s))) as [| c l]; [reflexivity |].
      cbn in Hempty. now destruct (rev l). }
    apply trimStart_blank in Hrev. rewrite forallb_rev_blank in Hrev.
    destruct (trimStart s) as [| c rest] eqn:Hstart.
    + now apply trimStart_blank.
    + apply trimStart_head in Hstart. cbn in Hrev.
      rewrite Hstart in Hrev. discriminate.
  - intros Hblank. apply trimStart_blank in Hblank.
    rewrite Hblank. reflexivity.
Qed.

(** X12: an idle page with something typed hands the submission to the
    hook, together with the selected mode. *)
Lemma idle_submit_reaches_hook (p : Page) :
  isLoading (chat p) = false ->
  forallb isWhiteSpace (input (chat p)) = false ->
  dispatch p FormSubmit
  = (mkPage (selectedModel p) (fst (handleSubmit (selectedModel p) (chat p))),
     snd (handleSubmit (selectedModel p) (chat p))).
Proof.
  intros Hidle Htyped. unfold ChatPage.dispatch, sendDisabled.
  rewrite Hidle.
  destruct (trim (input (chat p))) as [| c rest] eqn:Htrim.
  - apply trim_blank in Htrim. congruence.
  - cbn. now destruct (handleSubmit (selectedModel p) (chat p)).
Qed.

(** C5, as the page has it: when the input is empty or made of white
    space only, it is empty after trimming and the Send button is disabled,
    so no submission takes place: [handleSubmit] is not called, nothing is
    sent to the route and the page keeps its state, messages included.
    Nothing fails: no error is raised. *)
Theorem blank_input_is_not_submitted (p : Page) :
  forallb isWhiteSpace (input (chat p)) = true ->
  trim (input (chat p)) = []
  /\ sendDisabled p = true
  /\ Submission.submitOutcome p = Submission.NotSubmitted
  /\ dispatch p FormSubmit = (p, []).
Proof.
  intros Hblank. apply trim_blank in Hblank.
  assert (Hdisabled : sendDisabled p = true).
  { unfold sendDisabled. rewrite Hblank. apply orb_true_r. }
  split; [exact Hblank |]. split; [exact Hdisabled |].
  unfold Submission.submitOutcome, ChatPage.dispatch.
  rewrite Hdisabled. split; reflexivity.
Qed.

(** C6, as the page has it: while the hook reports a request in flight
    ([isLoading]), the Send button is disabled whatever the input holds, so
    no second submission takes place: [handleSubmit] is not called, nothing
    is sent and the page, the messages and the flag included, stays as it
    is.  Nothing fails: no error is raised. *)
Theorem in_flight_blocks_second_submit (p : Page) :
  isLoading (chat p) = true ->
  Submission.submitOutcome p = Submission.NotSubmitted
  /\ dispatch p FormSubmit = (p, []).
Proof.
  intros Hloading.
  assert (Hdisabled : sendDisabled p = true).
  { unfold sendDisabled. rewrite Hloading. reflexivity. }
  unfold Submission.submitOutcome, ChatPage.dispatch.
  rewrite Hdisabled. split; reflexivity.
Qed.

(** C7, as the page has it: the page takes no cancellation handle from
    the hook.  While a turn is in flight the selector, the input and the
    Send button are all disabled, so nothing the user does changes the page
    or sends anything; what has streamed so far stays in place. *)
Theorem in_flight_page_is_frozen (p : Page) (e : Event) :
  isLoading (chat p) = true ->
  dispatch p e = (p, []).
Proof.
  intros Hloading. unfold ChatPage.dispatch.
  destruct e; unfold selectDisabled, inputDisabled, sendDisabled;
    rewrite Hloading; reflexivity.
Qed.

End PageFacts.

Lemma blank_input_is_not_submitted_witness :
  ChatPage.trim (ChatPage.input (ChatPage.chat Samples.blankInput)) = []
  /\ ChatPage.sendDisabled Samples.blankInput = true
  /\ Submission.submitOutcome Samples.blankInput = Submission.NotSubmitted
  /\ ChatPage.dispatch Samples.hookInputChange Samples.hookSubmit
       Samples.blankInput ChatPage.FormSubmit
     = (Samples.blankInput, []).
Proof.
  apply (blank_input_is_not_submitted GroqModels.ModelKey
           Samples.hookInputChange Samples.hookSubmit Samples.blankInput).
  reflexivity.
Defined.

Lemma in_flight_blocks_second_submit_witness :
  Submission.submitOutcome Samples.streamingTyped = Submission.NotSubmitted
  /\ ChatPage.dispatch Samples.hookInputChange Samples.hookSubmit
       Samples.streamingTyped ChatPage.FormSubmit
     = (Samples.streamingTyped, []).
Proof.
  apply (in_flight_blocks_second_submit GroqModels.ModelKey
           Samples.hookInputChange Samples.hookSubmit Samples.streamingTyped).
  reflexivity.
Defined.

(** C5, as stated, on the page: with only blanks typed the submission
    attempt does not fail with [ValidationError]; it is not made. *)
Lemma blank_submit_raises_no_error :
  Submission.submitOutcome Samples.blankInput
  <> Submission.Raised Submission.ValidationError.
Proof.
  intros Hraised. vm_compute in Hraised. discriminate Hraised.
Qed.

(** C6, as stated, on the page: with an answer streaming and text in the
    input, the submission attempt does not fail with [TurnInFlightError]; it
    is not made. *)
Lemma in_flight_submit_raises_no_error :
  Submission.submitOutcome Samples.streamingTyped
  <> Submission.Raised Submission.TurnInFlightError.
Proof.
  intros Hraised. vm_compute in Hraised. discriminate Hraised.
Qed.

Lemma in_flight_page_is_frozen_witness :
  ChatPage.dispatch Samples.hookInputChange Samples.hookSubmit
    Samples.streamingHi (ChatPage.InputChange (ChatPage.units "stop"))
  = (Samples.streamingHi, []).
Proof.
  apply (in_flight_page_is_frozen GroqModels.ModelKey
           Samples.hookInputChange Samples.hookSubmit Samples.streamingHi).
  reflexivity.
Defined.

(** C7, as stated, on the page: were a cancellation handle wired, some user
    action would end the turn in flight.  With the answer "Hi" streaming,
    no action changes the page, whatever handlers the hook supplies: the turn
    stays in flight. *)
Lemma cancellation_handle_absent :
  ~ (exists (handleInputChange : ChatPage.jsstring -> ChatPage.Chat
                                  -> ChatPage.Chat)
            (handleSubmit : GroqModels.ModelKey -> ChatPage.Chat
                            -> ChatPage.Chat * list GroqModels.ModelKey)
            (e : ChatPage.Event),
        ChatPage.isLoading
          (ChatPage.chat
             (fst (ChatPage.dispatch handleInputChange handleSubmit
                     Samples.streamingHi e)))
        = false).
Proof.
  intros (hi & hs & e & Hended).
  destruct e; cbn in Hended; discriminate.
Qed.

(* ===================================================================== *)
(** * Properties of the Conversation Store *)
(* ===================================================================== *)

Section StoreFacts.
Import ConversationStore.

Lemma append_assoc (a b c : string) : (a ++ b) ++ c = a ++ (b ++ c).
Proof. induction a as [| x a IH]; cbn; [reflexivity | now rewrite IH]. Qed.

Lemma append_nil_r (a : string) : a ++ "" = a.
Proof. induction a as [| x a IH]; cbn; [reflexivity | now rewrite IH]. Qed.

(** *** Locating the turn an identifier names *)

Lemma lookup_app_miss i pre l :
  lookup i pre = None -> lookup i (pre ++ l)%list = lookup i l.
Proof.
  induction pre as [| t pre IH]; cbn; [reflexivity |].
  destruct (id t =? i)%nat; [discriminate | exact IH].
Qed.

Lemma update_app_miss i f pre l :
  lookup i pre = None ->
  update i f (pre ++ l)%list = (pre ++ update i f l)%list.
Proof.
  induction pre as [| t pre IH]; cbn; [reflexivity |].
  destruct (id t =? i)%nat; [discriminate |].
  intros Hmiss. now rewrite IH.
Qed.

Lemma lookup_split i c t :
  lookup i c = Some t ->
  exists pre post,
    c = (pre ++ t :: post)%list /\ lookup i pre = None /\ id t = i.
Proof.
  induction c as [| u c IH]; cbn; [discriminate |].
  destruct (id u =? i)%nat eqn:Hid.
  - intros [= ->]. exists [], c. cbn.
    apply Nat.eqb_eq in Hid. auto.
  - intros Hfound. destruct (IH Hfound) as (pre & post & -> & Hmiss & Hi).
    exists (u :: pre), post. cbn. rewrite Hid. auto.
Qed.

Lemma lookup_here i pre t post :
  lookup i pre = None -> id t = i ->
  lookup i (pre ++ t :: post)%list = Some t.
Proof.
  intros Hmiss Hid. rewrite lookup_app_miss by exact Hmiss.
  cbn. now rewrite Hid, Nat.eqb_refl.
Qed.

Lemma update_here i f pre t post :
  lookup i pre = None -> id t = i ->
  update i f (pre ++ t :: post)%list = (pre ++ f t :: post)%list.
Proof.
  intros Hmiss Hid. rewrite update_app_miss by exact Hmiss.
  cbn. now rewrite Hid, Nat.eqb_refl.
Qed.

Lemma id_below_fresh c t : In t c -> id t < freshId c.
Proof.
  unfold freshId. induction c as [| u c IH]; cbn; [tauto |].
  intros [-> | Hin]; [lia |]. specialize (IH Hin). lia.
Qed.

Lemma lookup_fresh c : lookup (freshId c) c = None.
Proof.
  assert (Hall : forall l, (forall t, In t l -> id t < freshId c) ->
                           lookup (freshId c) l = None).
  { induction l as [| u l IH]; cbn; [reflexivity |].
    intros Hbelow.
    destruct (Nat.eqb_spec (id u) (freshId c)) as [Heq | _].
    - specialize (Hbelow u (or_introl eq_refl)). lia.
    - apply IH. intros t Hin. apply Hbelow. now right. }
  apply Hall. intros t. apply id_below_fresh.
Qed.

(** *** Shape of a successful operation *)

Lemma whenStreaming_ok i f c c' :
  whenStreaming i f c = inr c' ->
  exists pre t post,
    c = (pre ++ t :: post)%list /\ c' = (pre ++ f t :: post)%list
    /\ status t = streaming /\ lookup i pre = None /\ id t = i.
Proof.
  unfold whenStreaming.
  destruct (lookup i c) as [t |] eqn:Hfound; [| discriminate].
  destruct (status t) eqn:Hstatus; try discriminate.
  intros [= <-].
  destruct (lookup_split _ _ _ Hfound) as (pre & post & -> & Hmiss & Hid).
  exists pre, t, post. rewrite update_here by assumption. auto.
Qed.

Lemma beginStreaming_ok i c c' :
  beginStreaming i c = inr c' ->
  exists pre t post,
    c = (pre ++ t :: post)%list
    /\ c' = (pre ++ setStatus streaming t :: post)%list
    /\ status t = pending /\ anyStreaming c = false.
Proof.
  unfold beginStreaming.
  destruct (lookup i c) as [t |] eqn:Hfound; [| discriminate].
  destruct (status t) eqn:Hstatus; try discriminate.
  destruct (anyStreaming c) eqn:Hany; [discriminate |].
  intros [= <-].
  destruct (lookup_split _ _ _ Hfound) as (pre & post & -> & Hmiss & Hid).
  exists pre, t, post. rewrite update_here by assumption. auto.
Qed.

Lemma whenStreaming_here i f pre t post :
  lookup i pre = None -> id t = i -> status t = streaming ->
  whenStreaming i f (pre ++ t :: post)%list = inr (pre ++ f t :: post)%list.
Proof.
  intros Hmiss Hid Hstatus. unfold whenStreaming.
  rewrite lookup_here, Hstatus, update_here by assumption. reflexivity.
Qed.

(** *** Counting the streaming turns *)

Lemma streamingCount_app c d :
  streamingCount (c ++ d)%list = streamingCount c + streamingCount d.
Proof. unfold streamingCount. now rewrite filter_app, length_app. Qed.

Lemma streamingCount_cons t c :
  streamingCount (t :: c)
  = (if isStreaming t then 1 else 0) + streamingCount c.
Proof. unfold streamingCount. cbn. now destruct (isStreaming t). Qed.

Lemma no_streaming_count c :
  anyStreaming c = false -> streamingCount c = 0.
Proof.
  unfold anyStreaming. induction c as [| t c IH]; [reflexivity |].
  cbn [existsb]. rewrite streamingCount_cons.
  destruct (isStreaming t); cbn; [discriminate |]. exact IH.
Qed.

Lemma streamingCount_replace pre t u post :
  streamingCount (pre ++ u :: post)%list
  + (if isStreaming t then 1 else 0)
  = streamingCount (pre ++ t :: post)%list
    + (if isStreaming u then 1 else 0).
Proof.
  rewrite !streamingCount_app, !streamingCount_cons.
  destruct (isStreaming t), (isStreaming u); lia.
Qed.

(** *** Statuses, position by position *)

Lemma nth_error_replace pre (t u : Turn) post n x :
  nth_error (pre ++ t :: post) n = Some x ->
  exists y, nth_error (pre ++ u :: post) n = Some y
            /\ (y = x \/ (x = t /\ y = u)).
Proof.
  revert n. induction pre as [| p pre IH]; intros [| n]; cbn.
  - intros [= <-]. exists u. auto.
  - intros Hx. exists x. auto.
  - intros [= <-]. exists p. auto.
  - apply IH.
Qed.

Lemma reaches_after s1 s2 s3 :
  transition s1 s2 -> reaches s2 s3 -> reaches s1 s3.
Proof.
  intros Hedge Hrest. induction Hrest as [s | s2 s3 s4 _ IH Hlast].
  - apply reaches_step with (s2 := s1); [apply reaches_refl | exact Hedge].
  - apply reaches_step with (s2 := s3); [exact (IH Hedge) | exact Hlast].
Qed.

Lemma reaches_rank s s' : reaches s s' -> rank s <= rank s'.
Proof.
  induction 1 as [s | s1 s2 s3 _ IH Hedge]; [lia |].
  destruct Hedge; cbn in *; lia.
Qed.

Lemma terminal_stays s s' :
  reaches s s' -> isTerminal s = true -> s' = s.
Proof.
  induction 1 as [s | s1 s2 s3 _ IH Hedge]; [reflexivity |].
  intros Hterminal. rewrite (IH Hterminal) in Hedge.
  destruct Hedge; discriminate.
Qed.

Lemma exec_step op c n t :
  nth_error c n = Some t ->
  exists t',
    nth_error (exec op c) n = Some t'
    /\ id t' = id t /\ role t' = role t
    /\ (status t' = status t \/ transition (status t) (status t')).
Proof.
  intros Hn.
  assert (Hstay : exists t', nth_error c n = Some t'
                    /\ id t' = id t /\ role t' = role t
                    /\ (status t' = status t
                        \/ transition (status t) (status t'))).
  { exists t. auto. }
  unfold exec. destruct (apply op c) as [err | c'] eqn:Hop; [exact Hstay |].
  destruct op as [r init | i | i text | i | i reason]; cbn in Hop.
  - unfold appendTurn in Hop.
    destruct (parseRole r) as [[] |]; inversion Hop; subst c';
      (rewrite nth_error_app1; [exact Hstay |]);
      apply nth_error_Some; congruence.
  - apply beginStreaming_ok in Hop.
    destruct Hop as (pre & u & post & -> & -> & Hstatus & _).
    destruct (nth_error_replace pre u (setStatus streaming u) post n t Hn)
      as (y & Hy & [-> | [-> ->]]).
    + exists t. auto.
    + exists (setStatus streaming u). repeat split; auto.
      right. cbn. rewrite Hstatus. constructor.
  - apply whenStreaming_ok in Hop.
    destruct Hop as (pre & u & post & -> & -> & Hstatus & _).
    destruct (nth_error_replace pre u (growContent text u) post n t Hn)
      as (y & Hy & [-> | [-> ->]]).
    + exists t. auto.
    + exists (growContent text u). repeat split; auto.
  - apply whenStreaming_ok in Hop.
    destruct Hop as (pre & u & post & -> & -> & Hstatus & _).
    destruct (nth_error_replace pre u (setStatus complete u) post n t Hn)
      as (y & Hy & [-> | [-> ->]]).
    + exists t. auto.
    + exists (setStatus complete u). repeat split; auto.
      right. cbn. rewrite Hstatus. constructor.
  - apply whenStreaming_ok in Hop.
    destruct Hop as (pre & u & post & -> & -> & Hstatus & _).
    destruct (nth_error_replace pre u (setStatus (errored reason) u) post
                n t Hn)
      as (y & Hy & [-> | [-> ->]]).
    + exists t. auto.
    + exists (setStatus (errored reason) u). repeat split; auto.
      right. cbn. rewrite Hstatus. constructor.
Qed.

Lemma run_reaches ops : forall c n t,
  nth_error c n = Some t ->
  exists t', nth_error (run ops c) n = Some t'
             /\ reaches (status t) (status t').
Proof.
  induction ops as [| op ops IH]; intros c n t Hn; cbn.
  - exists t. split; [exact Hn | apply reaches_refl].
  - destruct (exec_step op c n t Hn) as (u & Hu & _ & _ & Hstatus).
    destruct (IH _ _ _ Hu) as (t' & Ht' & Hreach).
    exists t'. split; [exact Ht' |].
    destruct Hstatus as [Hsame | Hedge].
    + now rewrite <- Hsame.
    + exact (reaches_after _ _ _ Hedge Hreach).
Qed.

Lemma deliver_here i chunks : forall pre t post,
  lookup i pre = None -> id t = i -> status t = streaming ->
  deliver i chunks (pre ++ t :: post)%list
  = inr (pre ++ mkTurn (id t) (role t)
                   (content t ++ concatChunks chunks) streaming :: post)%list.
Proof.
  induction chunks as [| text rest IH]; intros pre t post Hmiss Hid Hstatus;
    cbn [deliver concatChunks fold_right].
  - rewrite append_nil_r. destruct t as [ti tr tc ts]; cbn in *.
    now subst ts.
  - unfold appendChunk. rewrite whenStreaming_here by assumption.
    rewrite IH by (cbn; assumption).
    cbn. now rewrite append_assoc.
Qed.

Lemma exec_keeps_at_most_one op c :
  streamingCount c <= 1 -> streamingCount (exec op c) <= 1.
Proof.
  intros Hinv. unfold exec.
  destruct (apply op c) as [err | c'] eqn:Hop; [exact Hinv |].
  destruct op as [r init | i | i text | i | i reason]; cbn in Hop.
  - unfold appendTurn in Hop.
    destruct (parseRole r) as [[] |]; inversion Hop; subst c';
      rewrite streamingCount_app; cbn; lia.
  - apply beginStreaming_ok in Hop.
    destruct Hop as (pre & t & post & -> & -> & Hstatus & Hnone).
    apply no_streaming_count in Hnone.
    pose proof (streamingCount_replace pre t (setStatus streaming t) post)
      as Hcount.
    unfold isStreaming in Hcount at 1. rewrite Hstatus in Hcount.
    cbn in Hcount. lia.
  - apply whenStreaming_ok in Hop.
    destruct Hop as (pre & t & post & -> & -> & Hstatus & _).
    pose proof (streamingCount_replace pre t (growContent text t) post)
      as Hcount.
    unfold isStreaming in Hcount. cbn in Hcount. lia.
  - apply whenStreaming_ok in Hop.
    destruct Hop as (pre & t & post & -> & -> & Hstatus & _).
    pose proof (streamingCount_replace pre t (setStatus complete t) post)
      as Hcount.
    unfold isStreaming in Hcount. cbn in Hcount. lia.
  - apply whenStreaming_ok in Hop.
    destruct Hop as (pre & t & post & -> & -> & Hstatus & _).
    pose proof (streamingCount_replace pre t (setStatus (errored reason) t)
                  post) as Hcount.
    unfold isStreaming in Hcount. cbn in Hcount. lia.
Qed.

Lemma run_keeps_at_most_one ops : forall c,
  streamingCount c <= 1 -> streamingCount (run ops c) <= 1.
Proof.
  induction ops as [| op ops IH]; intros c Hinv; cbn; [exact Hinv |].
  apply IH. now apply exec_keeps_at_most_one.
Qed.

(** The end-to-end scenario of section 8: "2+2?" answered by the single
    chunk "4". *)
Example two_plus_two :
  run [ AppendTurn "user" "2+2?"; AppendTurn "assistant" "";
        BeginStreaming 2; AppendChunk 2 "4"; CompleteTurn 2 ] []
  = [ mkTurn 1 user "2+2?" complete; mkTurn 2 assistant "4" complete ].
Proof. reflexivity. Qed.

(** C3: the chunks delivered to a streaming turn end up, in delivery
    order and once each, after the content the turn already had, and no
    other turn of the conversation changes; for a turn that has just been
    appended and begun, the content is exactly the chunks joined.  A chunk
    aimed at a turn that is not streaming is refused. *)
Theorem chunks_concatenate_in_order :
  (forall c i t chunks,
      lookup i c = Some t -> status t = streaming ->
      exists pre post,
        c = (pre ++ t :: post)%list
        /\ deliver i chunks c
           = inr (pre ++ mkTurn (id t) (role t)
                            (content t ++ concatChunks chunks) streaming
                      :: post)%list)
  /\ (forall c init chunks,
        anyStreaming c = false ->
        exists i c1 c2,
          appendTurn "assistant" init c = inr (c1, i)
          /\ beginStreaming i c1 = inr c2
          /\ deliver i chunks c2
             = inr (c ++ [mkTurn i assistant (concatChunks chunks)
                            streaming])%list)
  /\ (forall c i text,
        (forall t, lookup i c = Some t -> status t <> streaming) ->
        appendChunk i text c = inl InvalidTransitionError).
Proof.
  split; [| split].
  - intros c i t chunks Hfound Hstatus.
    destruct (lookup_split _ _ _ Hfound) as (pre & post & -> & Hmiss & Hid).
    exists pre, post. split; [reflexivity |].
    now apply deliver_here.
  - intros c init chunks Hnone.
    pose proof (lookup_fresh c) as Hfresh.
    set (i := freshId c) in *.
    exists i, (c ++ [mkTurn i assistant "" pending])%list,
      (c ++ [mkTurn i assistant "" streaming])%list.
    split; [reflexivity |]. split.
    + unfold beginStreaming.
      rewrite lookup_here by (auto; reflexivity). cbn [status].
      unfold anyStreaming in *. rewrite existsb_app, Hnone. cbn.
      rewrite update_here by (auto; reflexivity). reflexivity.
    + rewrite deliver_here by (auto; reflexivity). reflexivity.
  - intros c i text Hnot. unfold appendChunk, whenStreaming.
    destruct (lookup i c) as [t |] eqn:Hfound; [| reflexivity].
    specialize (Hnot t eq_refl).
    destruct (status t); try reflexivity. congruence.
Qed.

(** C4: every operation of the store, whether it succeeds or is refused,
    leaves at most one turn streaming when at most one was streaming
    before; so does every sequence of operations, in particular from the
    empty conversation. *)
Theorem at_most_one_streaming :
  (forall op c, streamingCount c <= 1 -> streamingCount (exec op c) <= 1)
  /\ (forall op c c',
        streamingCount c <= 1 -> apply op c = inr c' ->
        streamingCount c' <= 1)
  /\ (forall ops c, streamingCount c <= 1 -> streamingCount (run ops c) <= 1)
  /\ (forall ops, streamingCount (run ops []) <= 1).
Proof.
  split; [exact exec_keeps_at_most_one |].
  split.
  { intros op c c' Hinv Hop.
    pose proof (exec_keeps_at_most_one op c Hinv) as Hexec.
    unfold exec in Hexec. now rewrite Hop in Hexec. }
  split; [exact run_keeps_at_most_one |].
  intros ops. apply run_keeps_at_most_one. cbn. lia.
Qed.

(** C8: an operation leaves the status of a turn as it is or moves it
    along one edge of [pending -> streaming -> complete | errored]; over
    any sequence of operations a status only follows these edges.  No edge
    skips a state, none leaves [complete] or [errored], none goes back, and
    an assistant turn starts [pending]. *)
Theorem status_follows_state_machine :
  (forall op c n t,
      nth_error c n = Some t ->
      exists t',
        nth_error (exec op c) n = Some t'
        /\ (status t' = status t \/ transition (status t) (status t')))
  /\ (forall ops c n t,
        nth_error c n = Some t ->
        exists t',
          nth_error (run ops c) n = Some t'
          /\ reaches (status t) (status t'))
  /\ (forall s s', transition s s' -> rank s' = S (rank s))
  /\ (forall s s', reaches s s' -> isTerminal s = true -> s' = s)
  /\ (forall s s', reaches s s' -> rank s <= rank s')
  /\ (forall c init c' i,
        appendTurn "assistant" init c = inr (c', i) ->
        lookup i c' = Some (mkTurn i assistant "" pending)).
Proof.
  split.
  { intros op c n t Hn.
    destruct (exec_step op c n t Hn) as (t' & Ht' & _ & _ & Hstatus).
    exists t'. auto. }
  split; [exact run_reaches |].
  split; [intros s s' []; reflexivity |].
  split; [exact terminal_stays |].
  split; [exact reaches_rank |].
  intros c init c' i [= <- <-].
  apply lookup_here; [apply lookup_fresh | reflexivity].
Qed.

End StoreFacts.

Lemma chunks_concatenate_in_order_witness :
  exists pre post,
    Samples.answering
    = (pre ++ ConversationStore.mkTurn 2 ConversationStore.assistant "Hi"
                ConversationStore.streaming :: post)%list
    /\ ConversationStore.deliver 2 [" there"; "!"] Samples.answering
       = inr (pre ++ ConversationStore.mkTurn 2 ConversationStore.assistant
                       "Hi there!" ConversationStore.streaming :: post)%list.
Proof.
  apply (proj1 chunks_concatenate_in_order Samples.answering 2
           (ConversationStore.mkTurn 2 ConversationStore.assistant "Hi"
              ConversationStore.streaming)
           [" there"; "!"]);
    reflexivity.
Defined.

Lemma at_most_one_streaming_witness :
  ConversationStore.streamingCount
    (ConversationStore.exec (ConversationStore.BeginStreaming 1)
       Samples.answering) <= 1.
Proof.
  apply (proj1 at_most_one_streaming (ConversationStore.BeginStreaming 1)
           Samples.answering).
  cbn. lia.
Defined.

Lemma status_follows_state_machine_witness :
  exists t',
    nth_error
      (ConversationStore.run
         [ConversationStore.CompleteTurn 2;
          ConversationStore.AppendChunk 2 "!";
          ConversationStore.BeginStreaming 2]
         Samples.answering) 1
    = Some t'
    /\ ConversationStore.reaches ConversationStore.streaming
         (ConversationStore.status t').
Proof.
  apply (proj1 (proj2 status_follows_state_machine)
           [ConversationStore.CompleteTurn 2;
            ConversationStore.AppendChunk 2 "!";
            ConversationStore.BeginStreaming 2]
           Samples.answering 1
           (ConversationStore.mkTurn 2 ConversationStore.assistant "Hi"
              ConversationStore.streaming)).
  reflexivity.
Defined.

(* ===================================================================== *)
(** * Further behaviour of the route *)
(* ===================================================================== *)

Section RouteBehaviour.
Import Js GroqModels Types Route.

Variables Result Stream : Type.
Variable streamText : member -> value -> res Result.
Variable toDataStreamResponse : Result -> res Stream.

Local Abbreviation handler := (POST streamText toDataStreamResponse).
Local Abbreviation attempt := (tryBlock streamText toDataStreamResponse).
Local Abbreviation afterGuards :=
  (Route.afterGuards streamText toDataStreamResponse).

Lemma destructure_fields v :
  v <> VNull -> v <> VUndefined ->
  destructure v = ret (getField "messages" v, getField "mode" v).
Proof. destruct v; try congruence; reflexivity. Qed.

Lemma attempt_mode_unconvertible v ms mode e :
  getField "messages" v = VArr ms ->
  getField "mode" v = mode ->
  truthy mode = true ->
  ToString mode = Throw e ->
  attempt (Parsed v) = ([], Throw e).
Proof.
  intros Hms Hmode Htruthy Hkey.
  destruct (getField_array_is_object _ _ _ Hms) as [fields ->].
  unfold tryBlock, destructure, req_json, modeRejected, MODELS_at,
    bind, ret, lift.
  cbn [fst snd app].
  rewrite Hms, Hmode. cbn [truthy Array_isArray negb orb].
  rewrite Htruthy. cbn [negb]. rewrite Hkey. reflexivity.
Qed.

Lemma afterGuards_not_400 modelId messages effs body :
  afterGuards modelId messages <> (effs, Ret (TextResponse body 400)).
Proof.
  unfold Route.afterGuards.
  destruct (streamText modelId messages) as [result | e]; [| discriminate].
  destruct (toDataStreamResponse result); discriminate.
Qed.

(** The four ways the [try] block can end. *)
Lemma attempt_cases req :
  (exists e, attempt req = ([], Throw e))
  \/ attempt req = ([], Ret (TextResponse "Messages array is required" 400))
  \/ attempt req = ([], Ret (TextResponse "Valid mode is required" 400))
  \/ (exists v ms k,
        req = Parsed v
        /\ getField "messages" v = VArr ms
        /\ truthy (getField "mode" v) = true
        /\ ToString (getField "mode" v) = Ret k
        /\ memberTruthy (MODELS_get k) = true
        /\ attempt req = afterGuards (MODELS_get k) (VArr ms)).
Proof.
  destruct req as [e | v]; [left; exists e; reflexivity |].
  destruct (Array_isArray (getField "messages" v)) eqn:Harray.
  2:{ destruct v; try (left; exists TypeError; reflexivity);
        right; left; apply attempt_no_messages;
        try discriminate; rewrite Harray; apply andb_false_r. }
  destruct (getField "messages" v) as [| | b | z s | s | ms | fs] eqn:Hms;
    try discriminate.
  destruct (truthy (getField "mode" v)) eqn:Htruthy.
  - destruct (ToString (getField "mode" v)) as [k | e] eqn:Hkey.
    + destruct (memberTruthy (MODELS_get k)) eqn:Hmember.
      * right; right; right. exists v, ms, k.
        repeat (split; [solve [auto] |]).
        now apply (attempt_accepted _ _ _ _ v ms (getField "mode" v) k).
      * right; right; left.
        apply (attempt_mode_rejected _ _ _ _ v ms (getField "mode" v)); auto.
        right. exists k. auto.
    + left. exists e.
      now apply (attempt_mode_unconvertible v ms (getField "mode" v) e).
  - right; right; left.
    apply (attempt_mode_rejected _ _ _ _ v ms (getField "mode" v)); auto.
Qed.

(** X1: for a body with a [messages] array and a string as [mode], the
    answer is "Valid mode is required" exactly when the string is neither a
    key of [MODELS] nor a name of [Object.prototype]. *)
Theorem POST_string_mode_verdict v ms k :
  getField "messages" v = VArr ms ->
  getField "mode" v = VStr k ->
  handler (Parsed v) = ([], Ret (TextResponse "Valid mode is required" 400))
  <-> (isCatalogKey k = false /\ inherited k = false).
Proof.
  intros Hms Hmode. split.
  - intros Hrejected.
    destruct (isCatalogKey k) eqn:Hcat.
    + exfalso. unfold isCatalogKey in Hcat.
      destruct (assoc k MODELS) as [modelId |] eqn:Hassoc; [| discriminate].
      assert (Hmember : memberTruthy (MODELS_get k) = true).
      { unfold MODELS_get. rewrite Hassoc. cbn.
        unfold MODELS in Hassoc. cbn in Hassoc.
        repeat match type of Hassoc with
               | (if ?c then _ else _) = _ =>
                   destruct c; [injection Hassoc as <-; reflexivity |]
               end.
        discriminate. }
      assert (Htruthy : truthy (VStr k) = true).
      { destruct k; [discriminate Hassoc | reflexivity]. }
      destruct (handler_accepted _ _ streamText toDataStreamResponse
                  v ms (VStr k) k Hms Hmode Htruthy eq_refl Hmember)
        as [_ Hno400].
      exact (Hno400 _ _ Hrejected).
    + destruct (inherited k) eqn:Hinh; [| auto].
      exfalso.
      destruct (handler_admits_inherited_mode _ _ streamText
                  toDataStreamResponse v ms k Hms Hmode Hinh) as [_ Hcalls].
      rewrite Hrejected in Hcalls. discriminate.
  - intros [Hcat Hinh].
    now apply (handler_rejects_unknown_mode _ _ _ _ v ms k).
Qed.

(** X2: with a [messages] array, a [mode] that is absent, [null], [false],
    zero or the empty string is answered "Valid mode is required"; nothing is
    logged and the provider is not contacted. *)
Theorem POST_falsy_mode_rejected v ms :
  getField "messages" v = VArr ms ->
  truthy (getField "mode" v) = false ->
  handler (Parsed v) = ([], Ret (TextResponse "Valid mode is required" 400)).
Proof.
  intros Hms Hfalsy. apply handler_of_return.
  apply (attempt_mode_rejected _ _ _ _ v ms (getField "mode" v)); auto.
Qed.

(** X3: a 400 answer is one of the two validation messages and comes with
    no effect at all: no call to the provider, nothing logged. *)
Theorem POST_400_has_no_effects req effs body :
  POST streamText toDataStreamResponse req
  = (effs, Ret (TextResponse body 400)) ->
  effs = []
  /\ (body = "Messages array is required" \/ body = "Valid mode is required").
Proof.
  intros Hresp.
  destruct (attempt_cases req)
    as [[e Hrun] | [Hrun | [Hrun | (v & ms & k & _ & _ & _ & _ & _ & Hrun)]]].
  - rewrite (handler_of_throw _ _ _ _ _ _ _ Hrun) in Hresp. discriminate.
  - rewrite (handler_of_return _ _ _ _ _ _ _ Hrun) in Hresp.
    injection Hresp as <- <-. auto.
  - rewrite (handler_of_return _ _ _ _ _ _ _ Hrun) in Hresp.
    injection Hresp as <- <-. auto.
  - exfalso. unfold Route.afterGuards in Hrun.
    destruct (streamText (MODELS_get k) (VArr ms)) as [result | e].
    + destruct (toDataStreamResponse result) as [s | e].
      * rewrite (handler_of_return _ _ _ _ _ _ _ Hrun) in Hresp. discriminate.
      * rewrite (handler_of_throw _ _ _ _ _ _ _ Hrun) in Hresp. discriminate.
    + rewrite (handler_of_throw _ _ _ _ _ _ _ Hrun) in Hresp. discriminate.
Qed.

(** X4: the provider is contacted at most once per request, and only with
    what passed the guards: the [messages] array of the body and a truthy
    member of [MODELS] read at the property key of a truthy [mode]. *)
Theorem POST_provider_call_only_after_guards req modelId messages :
  In (modelId, messages) (providerCalls (handler req)) ->
  providerCalls (handler req) = [(modelId, messages)]
  /\ exists v ms k,
       req = Parsed v
       /\ messages = VArr ms
       /\ getField "messages" v = VArr ms
       /\ truthy (getField "mode" v) = true
       /\ ToString (getField "mode" v) = Ret k
       /\ modelId = MODELS_get k
       /\ memberTruthy modelId = true.
Proof.
  intros Hin.
  destruct (attempt_cases req)
    as [[e Hrun] | [Hrun | [Hrun | (v & ms & k & Hreq & Hms & Htruthy & Hkey
                                    & Hmember & Hrun)]]].
  - rewrite (handler_of_throw _ _ _ _ _ _ _ Hrun) in Hin. destruct Hin.
  - rewrite (handler_of_return _ _ _ _ _ _ _ Hrun) in Hin. destruct Hin.
  - rewrite (handler_of_return _ _ _ _ _ _ _ Hrun) in Hin. destruct Hin.
  - subst req.
    destruct (handler_accepted _ _ streamText toDataStreamResponse
                v ms (getField "mode" v) k Hms eq_refl Htruthy Hkey Hmember)
      as [Hcalls _].
    rewrite Hcalls in Hin |- *.
    destruct Hin as [[= <- <-] | []].
    split; [reflexivity |]. exists v, ms, k. auto 10.
Qed.

(** X5: a 500 answer always reads "Internal server error", whatever was
    thrown; it is given exactly when the [try] block threw, and the
    exception is the last thing logged. *)
Theorem POST_500_is_opaque req effs body :
  POST streamText toDataStreamResponse req
  = (effs, Ret (TextResponse body 500)) ->
  body = "Internal server error"
  /\ exists pre e,
       tryBlock streamText toDataStreamResponse req = (pre, Throw e)
       /\ effs = (pre ++ [ConsoleError e])%list.
Proof.
  intros Hresp.
  destruct (attempt req) as [pre [resp | e]] eqn:Hrun.
  - exfalso. rewrite (handler_of_return _ _ _ _ _ _ _ Hrun) in Hresp.
    injection Hresp as -> ->.
    destruct (attempt_cases req)
      as [[e Hthrow] | [H400 | [H400 | (v & ms & k & _ & _ & _ & _ & _
                                        & Hok)]]];
      rewrite Hrun in *; try discriminate.
    unfold Route.afterGuards in Hok.
    destruct (streamText (MODELS_get k) (VArr ms)) as [result | e];
      [| discriminate].
    destruct (toDataStreamResponse result); discriminate.
  - rewrite (handler_of_throw _ _ _ _ _ _ _ Hrun) in Hresp.
    injection Hresp as <- <-.
    split; [reflexivity |]. exists pre, e. auto.
Qed.

(** X6: the handler reads nothing of the body but [messages] and [mode]:
    two bodies that agree on these two fields are answered alike. *)
Theorem POST_reads_two_fields v v' :
  v <> VNull -> v <> VUndefined -> v' <> VNull -> v' <> VUndefined ->
  getField "messages" v = getField "messages" v' ->
  getField "mode" v = getField "mode" v' ->
  handler (Parsed v) = handler (Parsed v').
Proof.
  intros Hnull Hundef Hnull' Hundef' Hms Hmode.
  assert (Hsame : attempt (Parsed v) = attempt (Parsed v')).
  { unfold tryBlock, req_json, ret. cbn [bind].
    rewrite (destructure_fields v), (destructure_fields v') by assumption.
    unfold ret. cbn [bind].
    rewrite Hms, Hmode. reflexivity. }
  unfold POST. now rewrite Hsame.
Qed.

(** X7: [mode] is used as a property key, so the handler sees it only
    through [ToBoolean] and [ToPropertyKey]: a catalog key wrapped in a
    one-element array is accepted like the key itself. *)
Theorem POST_array_wrapped_key_accepted v ms (k : ModelKey) :
  getField "messages" v = VArr ms ->
  getField "mode" v = VArr [VStr (keyName k)] ->
  providerCalls (handler (Parsed v)) = [(Own (modelIdOf k), VArr ms)].
Proof.
  intros Hms Hmode.
  destruct (typed_key_is_own k) as (Hget & Hmember & _).
  rewrite <- Hget.
  apply (handler_accepted _ _ streamText toDataStreamResponse
           v ms (VArr [VStr (keyName k)]) (keyName k)); auto.
Qed.

(** X8: a [mode] that cannot be turned into a property key (an object
    with a [toString] field of its own, alone or inside an array) makes
    [MODELS[mode]] throw: the answer is the 500, not the 400, and the
    provider is not contacted. *)
Theorem POST_unconvertible_mode_is_500 v ms e :
  getField "messages" v = VArr ms ->
  truthy (getField "mode" v) = true ->
  ToString (getField "mode" v) = Throw e ->
  handler (Parsed v)
  = ([ConsoleError e], Ret (TextResponse "Internal server error" 500)).
Proof.
  intros Hms Htruthy Hkey.
  apply (handler_of_throw _ _ streamText toDataStreamResponse (Parsed v) [] e).
  now apply (attempt_mode_unconvertible v ms (getField "mode" v) e).
Qed.

(** X9: a body that parses to a boolean, a number, a string or an array
    has no [messages] field: it is answered "Messages array is required",
    whatever it contains. *)
Theorem POST_non_object_body v :
  (forall fields, v <> VObj fields) ->
  v <> VNull -> v <> VUndefined ->
  POST streamText toDataStreamResponse (Parsed v)
  = ([], Ret (TextResponse "Messages array is required" 400)).
Proof.
  intros Hobject Hnull Hundef. apply handler_of_return.
  apply attempt_no_messages; auto.
  destruct v; try reflexivity. now elim (Hobject fields).
Qed.

(** X10: when the SDK calls succeed, the answer is the stream that
    [toDataStreamResponse] built from the result of [streamText]; the one
    effect is the call, and nothing is logged. *)
Theorem POST_streams_on_success v ms k result s :
  getField "messages" v = VArr ms ->
  truthy (getField "mode" v) = true ->
  ToString (getField "mode" v) = Ret k ->
  memberTruthy (MODELS_get k) = true ->
  streamText (MODELS_get k) (VArr ms) = Ret result ->
  toDataStreamResponse result = Ret s ->
  handler (Parsed v)
  = ([StreamTextCall (MODELS_get k) (VArr ms)], Ret (DataStreamResponse s)).
Proof.
  intros Hms Htruthy Hkey Hmember Hcall Hstream.
  apply handler_of_return.
  rewrite (attempt_accepted _ _ streamText toDataStreamResponse
             v ms (getField "mode" v) k Hms eq_refl Htruthy Hkey Hmember).
  unfold Route.afterGuards. now rewrite Hcall, Hstream.
Qed.

(** X17: a streamed answer is never made up: it is what
    [toDataStreamResponse] returned for the result of the one [streamText]
    call, made with the [messages] array of the body and the member of
    [MODELS] at its [mode]; nothing was logged. *)
Theorem POST_stream_comes_from_sdk req effs s :
  POST streamText toDataStreamResponse req
  = (effs, Ret (DataStreamResponse s)) ->
  exists v ms k result,
    req = Parsed v
    /\ getField "messages" v = VArr ms
    /\ ToString (getField "mode" v) = Ret k
    /\ memberTruthy (MODELS_get k) = true
    /\ streamText (MODELS_get k) (VArr ms) = Ret result
    /\ toDataStreamResponse result = Ret s
    /\ effs = [StreamTextCall (MODELS_get k) (VArr ms)].
Proof.
  intros Hresp.
  destruct (attempt_cases req)
    as [[e Hrun] | [Hrun | [Hrun | (v & ms & k & Hreq & Hms & _ & Hkey
                                    & Hmember & Hrun)]]].
  - rewrite (handler_of_throw _ _ _ _ _ _ _ Hrun) in Hresp. discriminate.
  - rewrite (handler_of_return _ _ _ _ _ _ _ Hrun) in Hresp. discriminate.
  - rewrite (handler_of_return _ _ _ _ _ _ _ Hrun) in Hresp. discriminate.
  - unfold Route.afterGuards in Hrun.
    destruct (streamText (MODELS_get k) (VArr ms)) as [result | e] eqn:Hcall.
    + destruct (toDataStreamResponse result) as [s' | e] eqn:Hstream.
      * rewrite (handler_of_return _ _ _ _ _ _ _ Hrun) in Hresp.
        injection Hresp as <- <-.
        exists v, ms, k, result. auto 10.
      * rewrite (handler_of_throw _ _ _ _ _ _ _ Hrun) in Hresp. discriminate.
    + rewrite (handler_of_throw _ _ _ _ _ _ _ Hrun) in Hresp. discriminate.
Qed.

End RouteBehaviour.

Lemma POST_string_mode_verdict_witness :
  Route.POST Samples.sdkStreamText Samples.sdkToResponse
    (Route.Parsed (Samples.helloBody "nope"))
  = ([], Js.Ret (Route.TextResponse "Valid mode is required" 400)).
Proof.
  apply (proj2 (POST_string_mode_verdict unit unit
                  Samples.sdkStreamText Samples.sdkToResponse
                  (Samples.helloBody "nope") Samples.helloMessages "nope"
                  eq_refl eq_refl)).
  split; reflexivity.
Defined.

Lemma POST_falsy_mode_rejected_witness :
  Route.POST Samples.sdkStreamText Samples.sdkToResponse
    (Route.Parsed Samples.modelessBody)
  = ([], Js.Ret (Route.TextResponse "Valid mode is required" 400)).
Proof.
  apply (POST_falsy_mode_rejected unit unit
           Samples.sdkStreamText Samples.sdkToResponse
           Samples.modelessBody []);
    reflexivity.
Defined.

Lemma POST_400_has_no_effects_witness :
  @nil Route.Effect = []
  /\ ("Messages array is required" = "Messages array is required"
      \/ "Messages array is required" = "Valid mode is required").
Proof.
  apply (POST_400_has_no_effects unit unit
           Samples.sdkStreamText Samples.sdkToResponse
           (Route.Parsed Samples.badBody) [] "Messages array is required").
  reflexivity.
Defined.

Lemma POST_provider_call_only_after_guards_witness :
  Route.providerCalls
    (Route.POST Samples.sdkStreamText Samples.sdkToResponse
       (Route.Parsed (Samples.helloBody "default")))
  = [(GroqModels.Own "llama-3.3-70b-versatile", Js.VArr Samples.helloMessages)].
Proof.
  apply (POST_provider_call_only_after_guards unit unit
           Samples.sdkStreamText Samples.sdkToResponse
           (Route.Parsed (Samples.helloBody "default"))
           (GroqModels.Own "llama-3.3-70b-versatile")
           (Js.VArr Samples.helloMessages)).
  left. reflexivity.
Defined.

Lemma POST_500_is_opaque_witness :
  "Internal server error" = "Internal server error"
  /\ exists pre e,
       Route.tryBlock Samples.sdkDown Samples.sdkToResponse
         (Route.Parsed (Samples.helloBody "default"))
       = (pre, Js.Throw e)
       /\ [Route.StreamTextCall (GroqModels.Own "llama-3.3-70b-versatile")
             (Js.VArr Samples.helloMessages);
           Route.ConsoleError (Js.External "fetch failed")]
          = (pre ++ [Route.ConsoleError e])%list.
Proof.
  apply (POST_500_is_opaque unit unit Samples.sdkDown Samples.sdkToResponse
           (Route.Parsed (Samples.helloBody "default"))).
  reflexivity.
Defined.

Lemma POST_reads_two_fields_witness :
  Route.POST Samples.sdkStreamText Samples.sdkToResponse
    (Route.Parsed Samples.noisyBody)
  = Route.POST Samples.sdkStreamText Samples.sdkToResponse
      (Route.Parsed (Samples.helloBody "default")).
Proof.
  apply (POST_reads_two_fields unit unit
           Samples.sdkStreamText Samples.sdkToResponse
           Samples.noisyBody (Samples.helloBody "default"));
    try discriminate; reflexivity.
Defined.

Lemma POST_array_wrapped_key_accepted_witness :
  Route.providerCalls
    (Route.POST Samples.sdkStreamText Samples.sdkToResponse
       (Route.Parsed (Samples.wrappedBody "fast")))
  = [(GroqModels.Own "llama-3.1-8b-instant", Js.VArr Samples.helloMessages)].
Proof.
  apply (POST_array_wrapped_key_accepted unit unit
           Samples.sdkStreamText Samples.sdkToResponse
           (Samples.wrappedBody "fast") Samples.helloMessages
           GroqModels.fast);
    reflexivity.
Defined.

Lemma POST_unconvertible_mode_is_500_witness :
  Route.POST Samples.sdkStreamText Samples.sdkToResponse
    (Route.Parsed Samples.stubbornBody)
  = ([Route.ConsoleError Js.TypeError],
     Js.Ret (Route.TextResponse "Internal server error" 500)).
Proof.
  apply (POST_unconvertible_mode_is_500 unit unit
           Samples.sdkStreamText Samples.sdkToResponse
           Samples.stubbornBody [] Js.TypeError);
    reflexivity.
Defined.

Lemma POST_non_object_body_witness :
  Route.POST Samples.sdkStreamText Samples.sdkToResponse
    (Route.Parsed (Js.VArr Samples.helloMessages))
  = ([], Js.Ret (Route.TextResponse "Messages array is required" 400)).
Proof.
  apply (POST_non_object_body unit unit
           Samples.sdkStreamText Samples.sdkToResponse
           (Js.VArr Samples.helloMessages));
    discriminate.
Defined.

Lemma POST_streams_on_success_witness :
  Route.POST Samples.sdkStreamText Samples.sdkToResponse
    (Route.Parsed (Samples.helloBody "default"))
  = ([Route.StreamTextCall (GroqModels.Own "llama-3.3-70b-versatile")
        (Js.VArr Samples.helloMessages)],
     Js.Ret (Route.DataStreamResponse tt)).
Proof.
  apply (POST_streams_on_success unit unit
           Samples.sdkStreamText Samples.sdkToResponse
           (Samples.helloBody "default") Samples.helloMessages "default"
           tt tt);
    reflexivity.
Defined.

(* ===================================================================== *)
(** * Further behaviour of the chat page *)
(* ===================================================================== *)

Section PageBehaviour.
Import GroqModels ChatPage.

Variable Request : Type.
Variable handleInputChange : jsstring -> Chat -> Chat.
Variable handleSubmit : ModelKey -> Chat -> Chat * list Request.

Local Abbreviation dispatch :=
  (ChatPage.dispatch handleInputChange handleSubmit).

Lemma not_all_blank s :
  forallb isWhiteSpace s = false
  <-> existsb (fun c => negb (isWhiteSpace c)) s = true.
Proof.
  induction s as [| c rest IH]; cbn.
  - split; discriminate.
  - destruct (isWhiteSpace c); cbn; [exact IH | now split].
Qed.

Lemma trim_keeps_text s :
  forallb isWhiteSpace s = false -> strTruthy (trim s) = true.
Proof.
  intros Htyped. destruct (trim s) as [| c rest] eqn:Htrim; [| reflexivity].
  apply trim_blank in Htrim. congruence.
Qed.

(** X11: the Send button is enabled exactly when no request is in flight
    and the input holds at least one code unit that is not white space. *)
Theorem send_enabled_iff (p : Page) :
  sendDisabled p = false
  <-> (isLoading (chat p) = false
       /\ existsb (fun c => negb (isWhiteSpace c)) (input (chat p)) = true).
Proof.
  unfold sendDisabled. rewrite orb_false_iff, negb_false_iff.
  rewrite <- not_all_blank. split; intros [Hidle Htext]; split; auto.
  - destruct (forallb isWhiteSpace (input (chat p))) eqn:Hblank; auto.
    apply trim_blank in Hblank. rewrite Hblank in Htext. discriminate.
  - now apply trim_keeps_text.
Qed.

(** X13: the page sends something only on a form submission made while
    idle with a non-blank input, and then exactly what [handleSubmit]
    returns; typing and changing the model never send anything. *)
Theorem requests_only_from_submit (p : Page) (e : Event) :
  snd (dispatch p e) <> [] ->
  e = FormSubmit
  /\ isLoading (chat p) = false
  /\ forallb isWhiteSpace (input (chat p)) = false
  /\ snd (dispatch p e) = snd (handleSubmit (selectedModel p) (chat p)).
Proof.
  unfold ChatPage.dispatch.
  destruct e as [k | text |].
  - destruct (selectDisabled p); cbn; congruence.
  - destruct (inputDisabled p); cbn; congruence.
  - destruct (sendDisabled p) eqn:Hdisabled; [cbn; congruence |].
    intros _. unfold sendDisabled in Hdisabled.
    apply orb_false_iff in Hdisabled. destruct Hdisabled as [Hidle Htext].
    apply negb_false_iff in Htext.
    repeat split; auto.
    + destruct (forallb isWhiteSpace (input (chat p))) eqn:Hblank; auto.
      apply trim_blank in Hblank. rewrite Hblank in Htext. discriminate.
    + now destruct (handleSubmit (selectedModel p) (chat p)).
Qed.

(** X14: the mode chosen in the selector is the mode submitted: on an idle
    page with a non-blank input, choosing [k] and then submitting calls
    [handleSubmit] with [k] on the chat as it was, since choosing a model
    touches neither the messages nor the input. *)
Theorem chosen_mode_is_sent (p : Page) (k : ModelKey) :
  isLoading (chat p) = false ->
  forallb isWhiteSpace (input (chat p)) = false ->
  chat (fst (dispatch p (SelectChange k))) = chat p
  /\ dispatch (fst (dispatch p (SelectChange k))) FormSubmit
     = (mkPage k (fst (handleSubmit k (chat p))),
        snd (handleSubmit k (chat p))).
Proof.
  intros Hidle Htyped.
  assert (Hchosen : dispatch p (SelectChange k) = (mkPage k (chat p), [])).
  { unfold ChatPage.dispatch, selectDisabled. now rewrite Hidle. }
  rewrite Hchosen. cbn [fst chat]. split; [reflexivity |].
  unfold ChatPage.dispatch, sendDisabled. cbn [chat selectedModel].
  rewrite Hidle, (trim_keeps_text _ Htyped). cbn.
  now destruct (handleSubmit k (chat p)).
Qed.

End PageBehaviour.

Lemma send_enabled_iff_witness :
  ChatPage.sendDisabled Samples.typedHello = false.
Proof.
  apply (proj2 (send_enabled_iff Samples.typedHello)).
  split; reflexivity.
Defined.

Lemma idle_submit_reaches_hook_witness :
  ChatPage.dispatch Samples.hookInputChange Samples.hookSubmit
    Samples.typedHello ChatPage.FormSubmit
  = (ChatPage.mkPage GroqModels.default
       (fst (Samples.hookSubmit GroqModels.default
               (ChatPage.chat Samples.typedHello))),
     [GroqModels.default]).
Proof.
  apply (idle_submit_reaches_hook GroqModels.ModelKey
           Samples.hookInputChange Samples.hookSubmit Samples.typedHello);
    reflexivity.
Defined.

Lemma requests_only_from_submit_witness :
  ChatPage.FormSubmit = ChatPage.FormSubmit
  /\ ChatPage.isLoading (ChatPage.chat Samples.typedHello) = false
  /\ forallb ChatPage.isWhiteSpace
       (ChatPage.input (ChatPage.chat Samples.typedHello)) = false
  /\ snd (ChatPage.dispatch Samples.hookInputChange Samples.hookSubmit
            Samples.typedHello ChatPage.FormSubmit)
     = snd (Samples.hookSubmit GroqModels.default
              (ChatPage.chat Samples.typedHello)).
Proof.
  apply (requests_only_from_submit GroqModels.ModelKey
           Samples.hookInputChange Samples.hookSubmit
           Samples.typedHello ChatPage.FormSubmit).
  discriminate.
Defined.

Lemma chosen_mode_is_sent_witness :
  snd (ChatPage.dispatch Samples.hookInputChange Samples.hookSubmit
         (fst (ChatPage.dispatch Samples.hookInputChange Samples.hookSubmit
                 Samples.typedHello (ChatPage.SelectChange GroqModels.fast)))
         ChatPage.FormSubmit)
  = [GroqModels.fast].
Proof.
  rewrite (proj2 (chosen_mode_is_sent GroqModels.ModelKey
                    Samples.hookInputChange Samples.hookSubmit
                    Samples.typedHello GroqModels.fast eq_refl eq_refl)).
  reflexivity.
Defined.

(* ===================================================================== *)
(** * The catalog and the selector *)
(* ===================================================================== *)

Section CatalogFacts.
Import Js GroqModels Route Selector.

Variables Result Stream : Type.
Variable streamText : member -> value -> res Result.
Variable toDataStreamResponse : Result -> res Stream.

Local Abbreviation handler := (POST streamText toDataStreamResponse).

(** X16: every option of the selector carries a [ModelKey] name as value
    and shows the model it stands for; each [ModelKey] is offered; and a
    request made with an option's value as [mode] passes the guards of the
    route and reaches the provider with the very model the label shows. *)
Theorem selector_options_are_accepted :
  (forall o, In o selectOptions ->
     exists k : ModelKey,
       optionValue o = keyName k
       /\ optionLabel o = keyName k ++ " (" ++ modelIdOf k ++ ")"
       /\ forall v ms,
            getField "messages" v = VArr ms ->
            getField "mode" v = VStr (optionValue o) ->
            providerCalls (handler (Parsed v))
            = [(Own (modelIdOf k), VArr ms)])
  /\ (forall k : ModelKey,
        In (mkSelectOption (keyName k)
              (keyName k ++ " (" ++ modelIdOf k ++ ")"))
           selectOptions)
  /\ NoDup (map optionValue selectOptions).
Proof.
  assert (Haccept : forall (k : ModelKey) v ms,
            getField "messages" v = VArr ms ->
            getField "mode" v = VStr (keyName k) ->
            providerCalls (handler (Parsed v))
            = [(Own (modelIdOf k), VArr ms)]).
  { intros k v ms Hms Hmode.
    destruct (typed_key_is_own k) as (Hget & Hmember & _).
    rewrite <- Hget.
    apply (handler_accepted _ _ streamText toDataStreamResponse
             v ms (VStr (keyName k)) (keyName k)); auto.
    now destruct k. }
  split; [| split].
  - intros o Hin. cbn in Hin.
    repeat (destruct Hin as [<- | Hin];
            [first [ exists fast; now repeat split; try apply (Haccept fast)
                   | exists default;
                     now repeat split; try apply (Haccept default)
                   | exists reasoning;
                     now repeat split; try apply (Haccept reasoning)
                   | exists browserLite;
                     now repeat split; try apply (Haccept browserLite)
                   | exists safety;
                     now repeat split; try apply (Haccept safety)
                   | exists compound;
                     now repeat split; try apply (Haccept compound) ] |]).
    destruct Hin.
  - intros k. destruct k; cbn; auto 10.
  - cbn. repeat (constructor; [cbn; intuition discriminate |]).
    constructor.
Qed.

End CatalogFacts.

Lemma selector_options_are_accepted_witness :
  exists k : GroqModels.ModelKey,
    "reasoning" = GroqModels.keyName k
    /\ "reasoning (openai/gpt-oss-120b)"
       = GroqModels.keyName k ++ " (" ++ GroqModels.modelIdOf k ++ ")"
    /\ forall v ms,
         Js.getField "messages" v = Js.VArr ms ->
         Js.getField "mode" v = Js.VStr "reasoning" ->
         Route.providerCalls
           (Route.POST Samples.sdkStreamText Samples.sdkToResponse
              (Route.Parsed v))
         = [(GroqModels.Own (GroqModels.modelIdOf k), Js.VArr ms)].
Proof.
  apply (proj1 (selector_options_are_accepted unit unit
                  Samples.sdkStreamText Samples.sdkToResponse)
           (Selector.mkSelectOption "reasoning"
              "reasoning (openai/gpt-oss-120b)")).
  cbn. auto.
Defined.

Lemma POST_stream_comes_from_sdk_witness :
  exists v ms k result,
    Route.Parsed (Samples.helloBody "default") = Route.Parsed v
    /\ Js.getField "messages" v = Js.VArr ms
    /\ Js.ToString (Js.getField "mode" v) = Js.Ret k
    /\ GroqModels.memberTruthy (GroqModels.MODELS_get k) = true
    /\ Samples.sdkStreamText (GroqModels.MODELS_get k) (Js.VArr ms)
       = Js.Ret result
    /\ Samples.sdkToResponse result = Js.Ret tt
    /\ [Route.StreamTextCall (GroqModels.Own "llama-3.3-70b-versatile")
          (Js.VArr Samples.helloMessages)]
       = [Route.StreamTextCall (GroqModels.MODELS_get k) (Js.VArr ms)].
Proof.
  apply (POST_stream_comes_from_sdk unit unit
           Samples.sdkStreamText Samples.sdkToResponse
           (Route.Parsed (Samples.helloBody "default"))).
  reflexivity.
Defined.
